(** * Kickpress project scaffolding: the generators of the kick command

    A shallow embedding of [src/lib/commands/kick/generators.ts]: the content
    renderers (one per generated file), the structure planner and the
    materializer, together with the few platform functions they call
    (template text, [JSON.stringify], [path.join], [mkdirSync],
    [writeFileSync]).

    Text is a [string] of bytes: the UTF-8 encoding [writeFileSync] puts on
    disk.  Template literals are given line by line, one list element per
    source line, and joined by [unlines]. *)

From Stdlib Require Import String Ascii List Bool Arith Lia.
Import ListNotations.
Open Scope string_scope.

(* ================================================================== *)
(** ** Text *)

Module Text.

(** The double quote and the line feed, by character code. *)
Definition dq : string := String "034"%char EmptyString.
Definition nl : string := String "010"%char EmptyString.

(** [q s] is [s] between double quotes. *)
Definition q (s : string) : string := dq ++ s ++ dq.

(** Every line followed by a line feed. *)
Fixpoint unlines (ls : list string) : string :=
  match ls with
  | [] => EmptyString
  | l :: rest => l ++ nl ++ unlines rest
  end.

(** [Array.prototype.join]. *)
Fixpoint join_with (sep : string) (xs : list string) : string :=
  match xs with
  | [] => EmptyString
  | [x] => x
  | x :: rest => x ++ sep ++ join_with sep rest
  end.

(** [String.prototype.startsWith] and [String.prototype.includes]. *)
Fixpoint starts_with (pre s : string) : bool :=
  match pre, s with
  | EmptyString, _ => true
  | String a pre', String b s' => Ascii.eqb a b && starts_with pre' s'
  | String _ _, EmptyString => false
  end.

Fixpoint includes (needle hay : string) : bool :=
  starts_with needle hay ||
  match hay with
  | EmptyString => false
  | String _ rest => includes needle rest
  end.

(** The characters of a text, last first. *)
Fixpoint reverse (s : string) : string :=
  match s with
  | EmptyString => EmptyString
  | String c rest => reverse rest ++ String c EmptyString
  end.

(** [String.prototype.endsWith]. *)
Definition ends_with (suffix s : string) : bool :=
  starts_with (reverse suffix) (reverse s).

(** The propositional reading of [includes]. *)
Definition Occurs (needle hay : string) : Prop :=
  exists pre post, hay = pre ++ needle ++ post.

(** [mem c s]: the character [c] occurs in [s]. *)
Fixpoint mem (c : ascii) (s : string) : bool :=
  match s with
  | EmptyString => false
  | String a rest => Ascii.eqb a c || mem c rest
  end.

Definition is_empty (s : string) : bool :=
  match s with EmptyString => true | String _ _ => false end.

Fixpoint list_eqb (xs ys : list string) : bool :=
  match xs, ys with
  | [], [] => true
  | x :: xs', y :: ys' => String.eqb x y && list_eqb xs' ys'
  | _, _ => false
  end.

(** [prefixb xs ys]: the list [xs] is an initial part of [ys]. *)
Fixpoint prefixb (xs ys : list string) : bool :=
  match xs, ys with
  | [], _ => true
  | x :: xs', y :: ys' => String.eqb x y && prefixb xs' ys'
  | _ :: _, [] => false
  end.

End Text.
Import Text.

(* ================================================================== *)
(** ** JSON values, [JSON.stringify (v, null, 2)] and [JSON.parse] *)

Module Json.

(** The JSON values the generators build: JS objects keep their keys in
    insertion order, so an object is an association list. *)
#[warnings="-register-all"]
Inductive json : Type :=
  | JNull
  | JBool (b : bool)
  | JStr (s : string)
  | JArr (xs : list json)
  | JObj (kvs : list (string * json)).

Fixpoint get (k : string) (kvs : list (string * json)) : option json :=
  match kvs with
  | [] => None
  | (k', v) :: rest => if String.eqb k k' then Some v else get k rest
  end.

(** [o[k] = v] on an object: the value is replaced where the key exists,
    a new key goes last. *)
Fixpoint set (k : string) (v : json) (kvs : list (string * json))
  : list (string * json) :=
  match kvs with
  | [] => [(k, v)]
  | (k', v') :: rest =>
      if String.eqb k k' then (k', v) :: rest else (k', v') :: set k v rest
  end.

Definition keys (kvs : list (string * json)) : list string := map fst kvs.

(** Property access [v.k], and a chain of them. *)
Definition field (k : string) (v : json) : option json :=
  match v with
  | JObj kvs => get k kvs
  | _ => None
  end.

Fixpoint at_path (ks : list string) (v : json) : option json :=
  match ks with
  | [] => Some v
  | k :: rest =>
      match field k v with
      | Some v' => at_path rest v'
      | None => None
      end
  end.

(** *** Serialisation *)

Definition hex_digit (n : nat) : ascii :=
  ascii_of_nat (if Nat.ltb n 10 then 48 + n else 87 + n).

(** One character of [QuoteJSONString]: the quote, the backslash and the
    control characters are escaped. *)
Definition escape_char (c : ascii) : string :=
  let n := nat_of_ascii c in
  if Nat.eqb n 34 then "\" ++ dq
  else if Nat.eqb n 92 then "\\"
  else if Nat.eqb n 8 then "\b"
  else if Nat.eqb n 12 then "\f"
  else if Nat.eqb n 10 then "\n"
  else if Nat.eqb n 13 then "\r"
  else if Nat.eqb n 9 then "\t"
  else if Nat.ltb n 32 then
    "\u00" ++ String (hex_digit (n / 16)) (String (hex_digit (n mod 16)) EmptyString)
  else String c EmptyString.

Fixpoint escape (s : string) : string :=
  match s with
  | EmptyString => EmptyString
  | String c rest => escape_char c ++ escape rest
  end.

Definition quote (s : string) : string := dq ++ escape s ++ dq.

(** [SerializeJSONProperty] with a gap of two spaces; [indent] is the
    current indentation. *)
Fixpoint stringify_at (indent : string) (v : json) : string :=
  let inner := indent ++ "  " in
  match v with
  | JNull => "null"
  | JBool b => if b then "true" else "false"
  | JStr s => quote s
  | JArr xs =>
      match xs with
      | [] => "[]"
      | _ =>
          "[" ++ nl ++ inner
            ++ join_with ("," ++ nl ++ inner) (map (stringify_at inner) xs)
            ++ nl ++ indent ++ "]"
      end
  | JObj kvs =>
      match kvs with
      | [] => "{}"
      | _ =>
          "{" ++ nl ++ inner
            ++ join_with ("," ++ nl ++ inner)
                 (map (fun kv => match kv with
                                 | (k, x) => quote k ++ ": " ++ stringify_at inner x
                                 end) kvs)
            ++ nl ++ indent ++ "}"
      end
  end.

(** [JSON.stringify (v, null, 2)]. *)
Definition stringify (v : json) : string := stringify_at EmptyString v.

(** *** Parsing

    A recursive-descent reader for the JSON grammar without numbers and
    without [\u] escapes: whatever it accepts is JSON text, which is all
    that validity of a generated file needs. *)

Definition is_ws (c : ascii) : bool :=
  let n := nat_of_ascii c in
  Nat.eqb n 32 || Nat.eqb n 10 || Nat.eqb n 13 || Nat.eqb n 9.

Fixpoint skip_ws (s : string) : string :=
  match s with
  | String c rest => if is_ws c then skip_ws rest else s
  | EmptyString => s
  end.

Definition unescape_char (c : ascii) : option ascii :=
  let n := nat_of_ascii c in
  if Nat.eqb n 34 then Some c
  else if Nat.eqb n 92 then Some c
  else if Nat.eqb n 47 then Some c
  else if Nat.eqb n 98 then Some (ascii_of_nat 8)
  else if Nat.eqb n 102 then Some (ascii_of_nat 12)
  else if Nat.eqb n 110 then Some (ascii_of_nat 10)
  else if Nat.eqb n 114 then Some (ascii_of_nat 13)
  else if Nat.eqb n 116 then Some (ascii_of_nat 9)
  else None.

(** The characters of a string literal after its opening quote, and the
    text after its closing quote. *)
Fixpoint parse_chars (s : string) : option (string * string) :=
  match s with
  | EmptyString => None
  | String c rest =>
      let n := nat_of_ascii c in
      if Nat.eqb n 34 then Some (EmptyString, rest)
      else if Nat.eqb n 92 then
        match rest with
        | String e rest' =>
            match unescape_char e, parse_chars rest' with
            | Some c', Some (body, out) => Some (String c' body, out)
            | _, _ => None
            end
        | EmptyString => None
        end
      else if Nat.ltb n 32 then None
      else
        match parse_chars rest with
        | Some (body, out) => Some (String c body, out)
        | None => None
        end
  end.

Definition expect (lit : string) (v : json) (s : string) : option (json * string) :=
  if starts_with lit s
  then Some (v, substring (String.length lit) (String.length s - String.length lit) s)
  else None.

Fixpoint parse_value (fuel : nat) (s : string) : option (json * string) :=
  match fuel with
  | O => None
  | S fuel' =>
      match skip_ws s with
      | EmptyString => None
      | String c rest =>
          let n := nat_of_ascii c in
          if Nat.eqb n 34 then
            match parse_chars rest with
            | Some (body, out) => Some (JStr body, out)
            | None => None
            end
          else if Nat.eqb n 91 then
            match skip_ws rest with
            | String c' rest' =>
                if Nat.eqb (nat_of_ascii c') 93 then Some (JArr [], rest')
                else
                  match parse_elements fuel' rest with
                  | Some (xs, out) => Some (JArr xs, out)
                  | None => None
                  end
            | EmptyString => None
            end
          else if Nat.eqb n 123 then
            match skip_ws rest with
            | String c' rest' =>
                if Nat.eqb (nat_of_ascii c') 125 then Some (JObj [], rest')
                else
                  match parse_members fuel' rest with
                  | Some (kvs, out) => Some (JObj kvs, out)
                  | None => None
                  end
            | EmptyString => None
            end
          else if Nat.eqb n 116 then expect "true" (JBool true) (String c rest)
          else if Nat.eqb n 102 then expect "false" (JBool false) (String c rest)
          else if Nat.eqb n 110 then expect "null" JNull (String c rest)
          else None
      end
  end

with parse_elements (fuel : nat) (s : string) : option (list json * string) :=
  match fuel with
  | O => None
  | S fuel' =>
      match parse_value fuel' s with
      | Some (x, out) =>
          match skip_ws out with
          | String c rest =>
              let n := nat_of_ascii c in
              if Nat.eqb n 93 then Some ([x], rest)
              else if Nat.eqb n 44 then
                match parse_elements fuel' rest with
                | Some (xs, out') => Some (x :: xs, out')
                | None => None
                end
              else None
          | EmptyString => None
          end
      | None => None
      end
  end

with parse_members (fuel : nat) (s : string) : option (list (string * json) * string) :=
  match fuel with
  | O => None
  | S fuel' =>
      match skip_ws s with
      | String c rest =>
          if Nat.eqb (nat_of_ascii c) 34 then
            match parse_chars rest with
            | Some (k, out) =>
                match skip_ws out with
                | String c' rest' =>
                    if Nat.eqb (nat_of_ascii c') 58 then
                      match parse_value fuel' rest' with
                      | Some (x, out') =>
                          match skip_ws out' with
                          | String c2 rest2 =>
                              let n := nat_of_ascii c2 in
                              if Nat.eqb n 125 then Some ([(k, x)], rest2)
                              else if Nat.eqb n 44 then
                                match parse_members fuel' rest2 with
                                | Some (kvs, out2) => Some ((k, x) :: kvs, out2)
                                | None => None
                                end
                              else None
                          | EmptyString => None
                          end
                      | None => None
                      end
                    else None
                | EmptyString => None
                end
            | None => None
            end
          else None
      | EmptyString => None
      end
  end.

(** [JSON.parse]: one value, then nothing but white space. *)
Definition parse (s : string) : option json :=
  match parse_value (S (String.length s)) s with
  | Some (v, out) => if is_empty (skip_ws out) then Some v else None
  | None => None
  end.

End Json.
Import Json.

(* ================================================================== *)
(** ** Paths: [join] of Node's [path] module (POSIX flavour) *)

Module Path.

(** A normalised path: whether it starts at the file-system root, and its
    components in order.  The components of a relative path may start with
    a run of [..]; no other component is empty, [.] or [..]. *)
Record t : Type := mk { absolute : bool; segs : list string }.

Definition eqb (a b : t) : bool :=
  Bool.eqb (absolute a) (absolute b) && list_eqb (segs a) (segs b).

(** [String.prototype.split ("/")]. *)
Fixpoint split_slash (s : string) : list string :=
  match s with
  | EmptyString => [EmptyString]
  | String c rest =>
      if Ascii.eqb c "/"%char then EmptyString :: split_slash rest
      else
        match split_slash rest with
        | [] => [String c EmptyString]
        | x :: xs => String c x :: xs
        end
  end.

(** One component in [normalizeString]; [stack] holds the components kept
    so far, the last one first.  An empty component and [.] are dropped;
    [..] removes the component before it, and is kept (when the path is
    relative) where there is none to remove. *)
Definition step (allowAboveRoot : bool) (stack : list string) (seg : string)
  : list string :=
  if String.eqb seg EmptyString || String.eqb seg "." then stack
  else if String.eqb seg ".." then
    match stack with
    | top :: below =>
        if String.eqb top ".."
        then (if allowAboveRoot then ".." :: stack else stack)
        else below
    | [] => if allowAboveRoot then [".."] else []
    end
  else seg :: stack.

Definition normalizeString (allowAboveRoot : bool) (path : string) : list string :=
  rev (fold_left (step allowAboveRoot) (split_slash path) []).

Definition isAbsolute (path : string) : bool := starts_with "/" path.

(** [path.join (...paths)]: the non-empty arguments are glued with [/] and
    the result is normalised. *)
Definition join (paths : list string) : t :=
  let joined := join_with "/" (filter (fun p => negb (is_empty p)) paths) in
  mk (isAbsolute joined) (normalizeString (negb (isAbsolute joined)) joined).

(** The string [join] returns, for a path without a trailing separator. *)
Definition to_string (p : t) : string :=
  match segs p with
  | [] => if absolute p then "/" else "."
  | _ => (if absolute p then "/" else EmptyString) ++ join_with "/" (segs p)
  end.

(** The last component: the name of the file or folder. *)
Definition basename (p : t) : string := last (segs p) EmptyString.

(** The directory a path lies in, and a path below a directory. *)
Definition parent (p : t) : t := mk (absolute p) (removelast (segs p)).

Definition under (d : t) (rel : list string) : t :=
  mk (absolute d) (segs d ++ rel).

(** [within d p]: [d] is [p] or one of the directories above it. *)
Definition within (d p : t) : bool :=
  Bool.eqb (absolute d) (absolute p) && prefixb (segs d) (segs p).

(** A component that names something inside its directory. *)
Definition plain (seg : string) : bool :=
  negb (String.eqb seg EmptyString || String.eqb seg "." || String.eqb seg "..").

End Path.

(* ================================================================== *)
(** ** The file system: [mkdirSync] and [writeFileSync] *)

Module Fs.

(** The directories created and the files written so far, the latest
    first.  [mkdirSync] with [recursive: true] creates the missing
    directories above its target as well, so a directory exists when it is
    recorded or lies above a recorded one; the working directory, the
    root and whatever is above the working directory exist from the start. *)
Record t : Type := mk { dirs : list Path.t; files : list (Path.t * string) }.

Definition empty : t := mk [] [].

Inductive error : Type :=
  | ENOENT (p : Path.t)
  | EISDIR (p : Path.t)
  | EEXIST (p : Path.t)
  | ENOTDIR (p : Path.t).

(** A computation on the file system that may throw. *)
Definition M (A : Type) : Type := t -> error + (A * t).

Definition ret {A : Type} (a : A) : M A := fun fs => inr (a, fs).

Definition bind {A B : Type} (m : M A) (k : A -> M B) : M B :=
  fun fs =>
    match m fs with
    | inl e => inl e
    | inr (a, fs') => k a fs'
    end.

(** [Array.prototype.forEach] with a throwing body. *)
Fixpoint forEach {A : Type} (xs : list A) (body : A -> M unit) : M unit :=
  match xs with
  | [] => ret tt
  | x :: rest => bind (body x) (fun _ => forEach rest body)
  end.

Definition given (p : Path.t) : bool :=
  forallb (fun s => String.eqb s "..") (Path.segs p).

Definition is_dir (fs : t) (p : Path.t) : bool :=
  given p || existsb (Path.within p) (dirs fs).

Definition is_file (fs : t) (p : Path.t) : bool :=
  existsb (fun f => Path.eqb (fst f) p) (files fs).

(** [readFileSync]: the latest content written at [p]. *)
Definition read (fs : t) (p : Path.t) : option string :=
  match find (fun f => Path.eqb (fst f) p) (files fs) with
  | Some f => Some (snd f)
  | None => None
  end.

(** [file_above fs p]: a regular file stands above [p], so that the way
    to [p] leads through something that is not a directory. *)
Definition file_above (fs : t) (p : Path.t) : bool :=
  existsb (fun f => Path.within (fst f) p && negb (Path.eqb (fst f) p))
    (files fs).

(** [mkdirSync (p, { recursive: true })]: succeeds silently on an existing
    directory, throws where a file stands at [p] or above it: [ENOTDIR]
    for a file above [p], [EEXIST] for a file at [p] itself. *)
Definition mkdirSync (p : Path.t) : M unit :=
  fun fs =>
    if existsb (fun f => Path.within (fst f) p) (files fs)
    then inl (if file_above fs p then ENOTDIR p else EEXIST p)
    else inr (tt, mk (p :: dirs fs) (files fs)).

(** [writeFileSync (p, data)]: creates or replaces the file; throws
    [EISDIR] on a directory and, where the directory of [p] does not
    exist, [ENOTDIR] if a file stands in its place or above it and
    [ENOENT] otherwise. *)
Definition writeFileSync (p : Path.t) (data : string) : M unit :=
  fun fs =>
    if is_dir fs p then inl (EISDIR p)
    else if negb (is_dir fs (Path.parent p))
    then inl (if existsb (fun f => Path.within (fst f) (Path.parent p)) (files fs)
              then ENOTDIR p else ENOENT p)
    else inr (tt, mk (dirs fs) ((p, data) :: files fs)).

End Fs.

Notation "m ;; k" := (Fs.bind m (fun _ => k))
  (at level 61, right associativity).

(* ================================================================== *)
(** ** The generators *)

Record ProjectConfig : Type := {
  projectName : string;
  projectPath : string;
  typescript : bool;
  database : string;
  template : string
}.

(** The folders of a project, relative to its root. *)
Definition folders : list string :=
  [ "src";
    "src/controllers";
    "src/models";
    "src/routes";
    "src/middlewares";
    "src/config";
    "src/utils";
    "src/lib";
    "src/types";
    "public";
    "prisma";
    "requests" ].

Definition createProjectStructure (projectPath : string) : Fs.M unit :=
  Fs.forEach folders (fun folder =>
    Fs.mkdirSync (Path.join [projectPath; folder])).

Definition generatePackageJson (config : ProjectConfig) : json :=
  let projectName := projectName config in
  let typescript := typescript config in
  let dependencies :=
    [ ("express", JStr "^4.18.2");
      ("express-async-handler", JStr "^1.2.0");
      ("@prisma/client", JStr "^7.1.0");
      ("@prisma/adapter-better-sqlite3", JStr "^7.1.0");
      ("better-sqlite3", JStr "^12.5.0");
      ("dotenv", JStr "^17.2.3") ] in
  let devDependencies :=
    [ ("@types/node", JStr "^20.10.6");
      ("@types/express", JStr "^4.17.21");
      ("@types/better-sqlite3", JStr "^7.6.13");
      ("prisma", JStr "^7.1.0") ] in
  (* Add TypeScript dependencies *)
  let devDependencies :=
    if typescript
    then Json.set "tsx" (JStr "^4.7.0")
           (Json.set "typescript" (JStr "^5.3.3") devDependencies)
    else devDependencies in
  let dependencies :=
    if typescript
    then dependencies
    else Json.set "@prisma/client-runtime-utils" (JStr "^7.1.0") dependencies in
  let scripts :=
    if typescript
    then
      [ ("dev", JStr "tsx watch --env-file=.env src/index.ts");
        ("build", JStr "tsc");
        ("start", JStr "node --env-file=.env dist/index.js");
        ("db:generate", JStr "prisma generate");
        ("db:push", JStr "prisma db push");
        ("db:migrate", JStr "prisma migrate dev");
        ("db:studio", JStr "prisma studio") ]
    else
      [ ("dev", JStr "node --watch --env-file=.env src/index.js");
        ("start", JStr "node --env-file=.env src/index.js");
        ("db:generate", JStr "prisma generate");
        ("db:push", JStr "prisma db push");
        ("db:migrate", JStr "prisma migrate dev");
        ("db:studio", JStr "prisma studio") ] in
  JObj
    [ ("name", JStr projectName);
      ("version", JStr "1.0.0");
      ("type", JStr "module");
      ("main", JStr (if typescript then "dist/index.js" else "src/index.js"));
      ("scripts", JObj scripts);
      ("dependencies", JObj dependencies);
      ("devDependencies", JObj devDependencies);
      ("license", JStr "MIT") ].

Definition generateIndexFile (typescript : bool) : string :=
  if typescript then
    unlines
      [ "import express, { Request, Response } from " ++ q "express" ++ ";";
        "    ";
        "import errorHandler from " ++ q "./middlewares/error.middleware" ++ ";";
        EmptyString;
        "const app = express();";
        "const PORT = process.env.PORT || 3000;";
        EmptyString;
        "// Middleware";
        "app.use(express.json());";
        "app.use(express.urlencoded({ extended: true }));";
        "app.use(express.static(" ++ q "public" ++ "));";
        EmptyString;
        "// Routes";
        "app.get(" ++ q "/" ++ ", (_: Request, res: Response) => {";
        "  res.json({ message: " ++ q "Welcome to Kickpress!" ++ " });";
        "});";
        EmptyString;
        "// Error Handler";
        "app.use(errorHandler);";
        EmptyString;
        "app.listen(PORT, () => {";
        "  console.log(`🚀 Server running on http://localhost:${PORT}`);";
        "});" ]
  else
    unlines
      [ "import express from " ++ q "express" ++ ";";
        EmptyString;
        "import errorHandler from " ++ q "./middlewares/error.middleware.js" ++ ";";
        EmptyString;
        "const app = express();";
        "const PORT = process.env.PORT || 3000;";
        EmptyString;
        "// Middleware";
        "app.use(express.json());";
        "app.use(express.urlencoded({ extended: true }));";
        "app.use(express.static(" ++ q "public" ++ "));";
        EmptyString;
        "// Routes";
        "app.get(" ++ q "/" ++ ", (_, res) => {";
        "  res.json({ message: " ++ q "Welcome to Kickpress!" ++ " });";
        "});";
        EmptyString;
        "// Error Handler";
        "app.use(errorHandler);";
        EmptyString;
        "app.listen(PORT, () => {";
        "  console.log(`🚀 Server running on http://localhost:${PORT}`);";
        "});" ].

Definition generateErrorMiddleware (typescript : bool) : string :=
  if typescript then
    unlines
      [ "import { Prisma } from " ++ q "../lib/generated/prisma/client" ++ ";";
        "import { NextFunction, Request, Response } from " ++ q "express" ++ ";";
        EmptyString;
        "const errorHandler = (";
        "  err: Error | Prisma.PrismaClientKnownRequestError,";
        "  req: Request,";
        "  res: Response,";
        "  next: NextFunction";
        ") => {";
        "  let statusCode = res.statusCode !== 200 ? res.statusCode : 500;";
        "  let message: string | object = err.message;";
        EmptyString;
        "  if (err instanceof Prisma.PrismaClientKnownRequestError) {";
        "    if (err.code === " ++ q "P2002" ++ ") {";
        "      statusCode = 409;";
        "      message = `Duplicate field value: ${err.meta?.target}`;";
        "    } else if (err.code === " ++ q "P2025" ++ ") {";
        "      statusCode = 404;";
        "      message = `Resource not found: ${err.meta?.cause}`;";
        "    }";
        "  }";
        EmptyString;
        "  res.status(statusCode).json({";
        "    message: message,";
        "    stack: process.env.NODE_ENV === " ++ q "production" ++ " ? null : err.stack,";
        "  });";
        "};";
        EmptyString;
        "export default errorHandler;" ]
  else
    unlines
      [ "const errorHandler = (err, req, res, next) => {";
        "  let statusCode = res.statusCode !== 200 ? res.statusCode : 500;";
        "  let message = err.message;";
        EmptyString;
        "  // Handle Prisma errors";
        "  if (err.code === " ++ q "P2002" ++ ") {";
        "    statusCode = 409;";
        "    message = `Duplicate field value: ${err.meta?.target}`;";
        "  } else if (err.code === " ++ q "P2025" ++ ") {";
        "    statusCode = 404;";
        "    message = `Resource not found: ${err.meta?.cause}`;";
        "  }";
        EmptyString;
        "  res.status(statusCode).json({";
        "    message: message,";
        "    stack: process.env.NODE_ENV === " ++ q "production" ++ " ? null : err.stack,";
        "  });";
        "};";
        EmptyString;
        "export default errorHandler;" ].

Definition generatePrismaClient (typescript : bool) : string :=
  if typescript then
    unlines
      [ "import { PrismaClient } from " ++ q "./generated/prisma/client" ++ ";";
        "import { PrismaBetterSqlite3 } from " ++ q "@prisma/adapter-better-sqlite3" ++ ";";
        EmptyString;
        "const adapter = new PrismaBetterSqlite3({";
        "  url: process.env.DATABASE_URL!,";
        "});";
        EmptyString;
        "const prisma = new PrismaClient({ adapter });";
        EmptyString;
        "export default prisma;" ]
  else
    unlines
      [ "import { PrismaClient } from " ++ q "./generated/prisma/index.js" ++ ";";
        "import { PrismaBetterSqlite3 } from " ++ q "@prisma/adapter-better-sqlite3" ++ ";";
        EmptyString;
        "const adapter = new PrismaBetterSqlite3({";
        "  url: process.env.DATABASE_URL,";
        "});";
        EmptyString;
        "const prisma = new PrismaClient({ adapter });";
        EmptyString;
        "export default prisma;" ].

Definition generatePrismaSchema : string :=
  unlines
    [ "generator client {";
      "  provider = " ++ q "prisma-client";
      "  output   = " ++ q "../src/lib/generated/prisma";
      "}";
      EmptyString;
      "datasource db {";
      "  provider = " ++ q "sqlite";
      "}";
      EmptyString ].

Definition generatePrismaConfig : string :=
  unlines
    [ "import " ++ q "dotenv/config" ++ ";";
      "import { defineConfig, env } from " ++ q "prisma/config" ++ ";";
      EmptyString;
      "export default defineConfig({";
      "  schema: " ++ q "prisma/schema.prisma" ++ ",";
      "  migrations: {";
      "    path: " ++ q "prisma/migrations" ++ ",";
      "  },";
      "  datasource: {";
      "    url: env(" ++ q "DATABASE_URL" ++ "),";
      "  },";
      "});" ].

Definition generateTsConfig : string :=
  Json.stringify
    (JObj
       [ ("compilerOptions",
          JObj
            [ ("target", JStr "ES2022");
              ("module", JStr "ESNext");
              ("moduleResolution", JStr "bundler");
              ("outDir", JStr "./dist");
              ("rootDir", JStr "./src");
              ("strict", JBool true);
              ("esModuleInterop", JBool true);
              ("skipLibCheck", JBool true);
              ("forceConsistentCasingInFileNames", JBool true);
              ("resolveJsonModule", JBool true);
              ("allowSyntheticDefaultImports", JBool true);
              ("paths", JObj [ ("@/*", JArr [ JStr "./src/*" ]) ]) ]);
         ("include", JArr [ JStr "src/**/*" ]);
         ("exclude", JArr [ JStr "node_modules"; JStr "dist" ]) ]).

Definition generateEnvFile (database : string) : string :=
  unlines
    [ "PORT=3000";
      "NODE_ENV=development";
      "DATABASE_URL=" ++ q "file:./dev.db" ].

Definition generateGitignore : string :=
  unlines
    [ "node_modules";
      ".env";
      ".env.local";
      "dist";
      "*.log";
      ".DS_Store";
      EmptyString;
      "# Prisma";
      "*.db";
      "*.db-journal";
      "src/lib/generated/" ].

Definition generateReadme (projectName : string) (typescript : bool)
    (packageManager : string) : string :=
  let pm := packageManager in
  let runCmd := if String.eqb pm "npm" then "npm run" else pm in
  unlines (
      [ "# " ++ projectName;
        EmptyString;
        "Created with [Kickpress CLI](https://github.com/clebertmarctyson/kickpress) ☕";
        EmptyString;
        "A production-ready Express.js API with TypeScript, Prisma ORM, and best practices built-in.";
        EmptyString;
        "## 🚀 Getting Started";
        EmptyString ]
   ++ (if String.eqb pm "pnpm" then
      [ "### ⚠️ Important: Approve Native Builds (pnpm only)";
        EmptyString;
        "Before running the project, you need to approve native dependencies:";
        EmptyString;
        "```bash";
        "pnpm approve-builds";
        "# Select: better-sqlite3 (press space, then enter)";
        "```";
        EmptyString;
        "This is a one-time setup required by pnpm for native dependencies.";
        EmptyString;
        "---";
        EmptyString ]
       else [])
   ++ [ "### 1. Install Dependencies";
        EmptyString ]
   ++ [ if String.eqb pm "pnpm"
        then "Dependencies should already be installed. If not, run:"
        else "Install all project dependencies:" ]
   ++ [ EmptyString;
        "```bash";
        pm ++ " install";
        "```";
        EmptyString;
        "### 2. Setup Database";
        EmptyString;
        "```bash";
        "# Generate Prisma Client";
        runCmd ++ " db:generate";
        EmptyString;
        "# Push schema to database";
        runCmd ++ " db:push";
        "```";
        EmptyString;
        "### 3. Start Development Server";
        EmptyString;
        "```bash";
        runCmd ++ " dev";
        "```";
        EmptyString;
        "Your API is now running at `http://localhost:3000`! 🎉";
        EmptyString;
        "## 📋 Available Commands";
        EmptyString;
        "### Development";
        "- `" ++ runCmd ++ " dev` - Start development server with hot reload";
        EmptyString ]
   ++ (if typescript then
      [ "### Build";
        "- `" ++ runCmd ++ " build` - Compile TypeScript to JavaScript";
        "- `" ++ runCmd ++ " start` - Start production server";
        EmptyString ]
       else
      [ "### Production";
        "- `" ++ runCmd ++ " start` - Start production server";
        EmptyString ])
   ++ [ "### Database Management";
        "- `" ++ runCmd ++ " db:generate` - Generate Prisma Client";
        "- `" ++ runCmd ++ " db:push` - Push schema changes to database";
        "- `" ++ runCmd ++ " db:migrate` - Create a new migration";
        "- `" ++ runCmd ++ " db:studio` - Open Prisma Studio (database GUI)";
        EmptyString;
        "## 🎯 Generate Resources";
        EmptyString;
        "Kickpress can generate complete CRUD resources for any entity:";
        EmptyString;
        "```bash";
        "# Generate everything (routes, controller, model, types, HTTP requests)";
        "npx kickpress make user resources";
        "npx kickpress gen post resources     # Short alias";
        EmptyString;
        "# Generate individual components";
        "npx kickpress make user model";
        "npx kickpress make user controller";
        "npx kickpress make user routes";
        "```";
        EmptyString;
        "**Available aliases:**";
        "- `make` / `m` / `gen` / `g` / `generate`";
        EmptyString;
        "## 📁 Project Structure";
        EmptyString;
        "```";
        projectName ++ "/";
        "├── src/";
        "│   ├── index." ++ (if typescript then "ts" else "js") ++ "           # Main entry point";
        "│   ├── lib/";
        "│   │   └── prisma." ++ (if typescript then "ts" else "js") ++ "      # Prisma client";
        "│   ├── controllers/                  # Request handlers";
        "│   ├── models/                       # Database operations";
        "│   ├── routes/                       # Express routes" ]
   ++ (if typescript then [ "│   ├── types/                        # TypeScript types" ] else [])
   ++ [ "│   ├── middlewares/";
        "│   │   └── error.middleware." ++ (if typescript then "ts" else "js");
        "│   ├── config/                       # Configuration";
        "│   └── utils/                        # Utilities";
        "├── prisma/";
        "│   ├── schema.prisma                 # Database schema";
        "│   └── migrations/                   # Database migrations";
        "├── requests/                         # HTTP test files";
        "├── .env                              # Environment variables" ]
   ++ (if typescript then [ "├── tsconfig.json                     # TypeScript config" ] else [])
   ++ [ "└── package.json";
        "```";
        EmptyString;
        "## 🧪 Testing Your API";
        EmptyString;
        "Each generated resource includes an `.http` file for testing. Use [REST Client](https://marketplace.visualstudio.com/items?itemName=humao.rest-client) extension in VS Code:";
        EmptyString;
        "1. Open `requests/user.http`";
        "2. Click " ++ q "Send Request" ++ " above any request";
        "3. View response in VS Code";
        EmptyString;
        "Or use curl:";
        EmptyString;
        "```bash";
        "# Get all users";
        "curl http://localhost:3000/users";
        EmptyString;
        "# Create a user";
        "curl -X POST http://localhost:3000/users \";
        "  -H " ++ q "Content-Type: application/json" ++ " \";
        "  -d '{" ++ q "name" ++ ":" ++ q "John Doe" ++ "," ++ q "email" ++ ":" ++ q "john@example.com" ++ "}'";
        "```";
        EmptyString;
        "## 📝 Environment Variables";
        EmptyString;
        "Edit `.env` to configure your application:";
        EmptyString;
        "```env";
        "PORT=3000";
        "NODE_ENV=development";
        "DATABASE_URL=" ++ q "file:./dev.db";
        "```";
        EmptyString;
        "## 🛠️ Technology Stack";
        EmptyString;
        "- **Express.js** - Fast, minimalist web framework" ]
   ++ (if typescript then [ "- **TypeScript** - Type-safe JavaScript" ] else [])
   ++ (if typescript then [ "- **tsx** - TypeScript execution engine" ] else [])
   ++ [ "- **Prisma** - Next-generation ORM";
        "- **SQLite** - Default database (easily swappable)";
        "- **express-async-handler** - Async error handling";
        EmptyString;
        "## 📚 Learn More";
        EmptyString;
        "- [Kickpress Documentation](https://github.com/clebertmarctyson/kickpress#readme)";
        "- [Express.js Docs](https://expressjs.com/)";
        "- [Prisma Docs](https://www.prisma.io/docs)" ]
   ++ (if typescript then [ "- [TypeScript Docs](https://www.typescriptlang.org/)" ] else [])
   ++ [ EmptyString ]
   ++ [ "## 🐛 Troubleshooting";
        EmptyString;
        "### Port already in use";
        "Change the port in `.env`:";
        "```env";
        "PORT=3001";
        "```";
        EmptyString;
        "### Prisma Client errors";
        "Regenerate the Prisma client:";
        "```bash";
        runCmd ++ " db:generate";
        "```" ]
   ++ (if String.eqb pm "pnpm" then
      [ EmptyString;
        "### Module not found errors (pnpm)";
        "Make sure you've approved native builds:";
        "```bash";
        "pnpm approve-builds";
        "# Select: better-sqlite3";
        "```" ]
       else [])
   ++ [ EmptyString ]
   ++ [ "## 💬 Support";
        EmptyString;
        "- 🐛 [Report Issues](https://github.com/clebertmarctyson/kickpress/issues)";
        "- 💡 [Request Features](https://github.com/clebertmarctyson/kickpress/issues/new)";
        "- 📧 Email: contact@marctysonclebert.com";
        EmptyString;
        "---";
        EmptyString;
        "Made with ☕ and ❤️ by [Marc Tyson CLEBERT](https://www.marctysonclebert.com)" ]).

Definition writeProjectFiles (config : ProjectConfig) (packageManager : string)
  : Fs.M unit :=
  let projectPath := projectPath config in
  let projectName := projectName config in
  let typescript := typescript config in
  let database := database config in
  (* Write package.json *)
  Fs.writeFileSync (Path.join [projectPath; "package.json"])
    (Json.stringify (generatePackageJson config)) ;;
  (* Write main index file *)
  let extension := if typescript then "ts" else "js" in
  Fs.writeFileSync (Path.join [projectPath; "src"; "index." ++ extension])
    (generateIndexFile typescript) ;;
  (* Write Prisma client *)
  Fs.writeFileSync (Path.join [projectPath; "src"; "lib"; "prisma." ++ extension])
    (generatePrismaClient typescript) ;;
  (* Write error middleware *)
  Fs.writeFileSync
    (Path.join [projectPath; "src"; "middlewares"; "error.middleware." ++ extension])
    (generateErrorMiddleware typescript) ;;
  (* Write Prisma files *)
  Fs.writeFileSync (Path.join [projectPath; "prisma"; "schema.prisma"])
    generatePrismaSchema ;;
  Fs.writeFileSync (Path.join [projectPath; "prisma.config.ts"])
    generatePrismaConfig ;;
  (* Write tsconfig.json if TypeScript *)
  (if typescript
   then Fs.writeFileSync (Path.join [projectPath; "tsconfig.json"]) generateTsConfig
   else Fs.ret tt) ;;
  (* Write other files *)
  Fs.writeFileSync (Path.join [projectPath; ".env"]) (generateEnvFile database) ;;
  Fs.writeFileSync (Path.join [projectPath; ".gitignore"]) generateGitignore ;;
  Fs.writeFileSync (Path.join [projectPath; "README.md"])
    (generateReadme projectName typescript packageManager).

(** One generation run: the structure planner, then the materializer. *)
Definition scaffold (config : ProjectConfig) (packageManager : string) : Fs.M unit :=
  createProjectStructure (projectPath config) ;;
  writeProjectFiles config packageManager.

(* ================================================================== *)
(** ** What the emitted error middleware does

    [generateErrorMiddleware] returns program text.  Its handler is read
    here as a function, statement by statement, from the two template
    bodies: an error and the response's current status code go in, the
    status code and the JSON body passed to [res.status (...).json (...)]
    come out. *)

Module Handler.

(** The JS values the handler looks at. *)
Inductive value : Type :=
  | Undefined
  | Null
  | Str (s : string).

(** [ToString], as a template literal applies it to an interpolated value. *)
Definition to_string (v : value) : string :=
  match v with
  | Undefined => "undefined"
  | Null => "null"
  | Str s => s
  end.

(** [v === s] for a string literal [s]. *)
Definition equals (v : value) (s : string) : bool :=
  match v with
  | Str x => String.eqb x s
  | _ => false
  end.

Record Meta : Type := { target : value; cause : value }.

(** The thrown error: [known] is
    [err instanceof Prisma.PrismaClientKnownRequestError]. *)
Record Err : Type := {
  known : bool;
  code : value;
  message : string;
  meta : option Meta;
  stack : value
}.

(** [err.meta?.target] and [err.meta?.cause]. *)
Definition meta_field (f : Meta -> value) (err : Err) : value :=
  match meta err with
  | Some m => f m
  | None => Undefined
  end.

Record Reply : Type := {
  status : nat;
  json_message : string;
  json_stack : value
}.

(** The handler of the TypeScript template. *)
Definition errorHandler_ts (NODE_ENV : value) (err : Err) (res_statusCode : nat)
  : Reply :=
  let statusCode := if negb (Nat.eqb res_statusCode 200) then res_statusCode else 500 in
  let message := message err in
  let (statusCode, message) :=
    if known err then
      if equals (code err) "P2002" then
        (409, "Duplicate field value: " ++ to_string (meta_field target err))
      else if equals (code err) "P2025" then
        (404, "Resource not found: " ++ to_string (meta_field cause err))
      else (statusCode, message)
    else (statusCode, message) in
  {| status := statusCode;
     json_message := message;
     json_stack := if equals NODE_ENV "production" then Null else stack err |}.

(** The handler of the JavaScript template. *)
Definition errorHandler_js (NODE_ENV : value) (err : Err) (res_statusCode : nat)
  : Reply :=
  let statusCode := if negb (Nat.eqb res_statusCode 200) then res_statusCode else 500 in
  let message := message err in
  (* Handle Prisma errors *)
  let (statusCode, message) :=
    if equals (code err) "P2002" then
      (409, "Duplicate field value: " ++ to_string (meta_field target err))
    else if equals (code err) "P2025" then
      (404, "Resource not found: " ++ to_string (meta_field cause err))
    else (statusCode, message) in
  {| status := statusCode;
     json_message := message;
     json_stack := if equals NODE_ENV "production" then Null else stack err |}.

Definition errorHandler (typescript : bool) : value -> Err -> nat -> Reply :=
  if typescript then errorHandler_ts else errorHandler_js.

End Handler.

(* ================================================================== *)
(** ** Sample inputs *)

Definition demo_config : ProjectConfig :=
  {| projectName := "demo-api";
     projectPath := "/tmp/demo-api";
     typescript := true;
     database := "sqlite";
     template := "default" |}.

Definition demo_config_js : ProjectConfig :=
  {| projectName := "demo-api";
     projectPath := "/tmp/demo-api";
     typescript := false;
     database := "sqlite";
     template := "default" |}.

Definition demo_config_postgres : ProjectConfig :=
  {| projectName := "demo-api";
     projectPath := "/tmp/demo-api";
     typescript := true;
     database := "postgresql";
     template := "default" |}.

Definition demo_config_minimal : ProjectConfig :=
  {| projectName := "demo-api";
     projectPath := "/tmp/demo-api";
     typescript := true;
     database := "sqlite";
     template := "minimal" |}.

(** An error that carries the code P2002 without being an instance of
    [Prisma.PrismaClientKnownRequestError]. *)
Definition foreign_P2002 : Handler.Err :=
  {| Handler.known := false;
     Handler.code := Handler.Str "P2002";
     Handler.message := "Unique constraint failed";
     Handler.meta :=
       Some {| Handler.target := Handler.Str "email";
               Handler.cause := Handler.Undefined |};
     Handler.stack := Handler.Str "Error: Unique constraint failed" |}.

(** A unique-constraint violation as Prisma throws it. *)
Definition prisma_P2002 : Handler.Err :=
  {| Handler.known := true;
     Handler.code := Handler.Str "P2002";
     Handler.message := "Unique constraint failed";
     Handler.meta :=
       Some {| Handler.target := Handler.Str "email";
               Handler.cause := Handler.Undefined |};
     Handler.stack := Handler.Str "Error: Unique constraint failed" |}.

(** The statements the two templates of the error middleware share. *)
Definition handler_statements : list string :=
  [ "let statusCode = res.statusCode !== 200 ? res.statusCode : 500;";
    "if (err.code === " ++ q "P2002" ++ ") {";
    "statusCode = 409;";
    "message = `Duplicate field value: ${err.meta?.target}`;";
    "} else if (err.code === " ++ q "P2025" ++ ") {";
    "statusCode = 404;";
    "message = `Resource not found: ${err.meta?.cause}`;";
    "res.status(statusCode).json({";
    "message: message,";
    "stack: process.env.NODE_ENV === " ++ q "production" ++ " ? null : err.stack," ].

(* ================================================================== *)
(** ** Parts of the documentation *)

(** [has_line l text]: [l] is one of the lines of [text]. *)
Definition has_line (l text : string) : bool :=
  starts_with (l ++ nl) text || includes (nl ++ l ++ nl) text.

(** The lines of the README down to the heading of its first section. *)
Definition readme_opening (projectName : string) : list string :=
  [ "# " ++ projectName;
    EmptyString;
    "Created with [Kickpress CLI](https://github.com/clebertmarctyson/kickpress) ☕";
    EmptyString;
    "A production-ready Express.js API with TypeScript, Prisma ORM, and best practices built-in.";
    EmptyString;
    "## 🚀 Getting Started";
    EmptyString ].

(** The section on approving native builds. *)
Definition approve_builds_section : list string :=
  [ "### ⚠️ Important: Approve Native Builds (pnpm only)";
    EmptyString;
    "Before running the project, you need to approve native dependencies:";
    EmptyString;
    "```bash";
    "pnpm approve-builds";
    "# Select: better-sqlite3 (press space, then enter)";
    "```";
    EmptyString;
    "This is a one-time setup required by pnpm for native dependencies.";
    EmptyString;
    "---";
    EmptyString ].

(** The troubleshooting entry on approving native builds. *)
Definition approve_builds_troubleshooting : list string :=
  [ EmptyString;
    "### Module not found errors (pnpm)";
    "Make sure you've approved native builds:";
    "```bash";
    "pnpm approve-builds";
    "# Select: better-sqlite3";
    "```" ].

(** The lines that end the README, from the blank line before its last
    section on. *)
Definition readme_closing : list string :=
  [ EmptyString;
    "## 💬 Support";
    EmptyString;
    "- 🐛 [Report Issues](https://github.com/clebertmarctyson/kickpress/issues)";
    "- 💡 [Request Features](https://github.com/clebertmarctyson/kickpress/issues/new)";
    "- 📧 Email: contact@marctysonclebert.com";
    EmptyString;
    "---";
    EmptyString;
    "Made with ☕ and ❤️ by [Marc Tyson CLEBERT](https://www.marctysonclebert.com)" ].

(** The command examples that run a script of the manifest, for the
    invocation prefix [run]. *)
Definition script_examples (run : string) (typescript : bool) : list string :=
  [ run ++ " db:generate";
    run ++ " db:push";
    run ++ " dev";
    "- `" ++ run ++ " dev` - Start development server with hot reload" ]
  ++ (if typescript
      then [ "- `" ++ run ++ " build` - Compile TypeScript to JavaScript" ]
      else [])
  ++ [ "- `" ++ run ++ " start` - Start production server";
       "- `" ++ run ++ " db:generate` - Generate Prisma Client";
       "- `" ++ run ++ " db:push` - Push schema changes to database";
       "- `" ++ run ++ " db:migrate` - Create a new migration";
       "- `" ++ run ++ " db:studio` - Open Prisma Studio (database GUI)" ].

(* ================================================================== *)
(** ** A generation run, seen from the destination *)

(** A file system whose directories and files all lie below [d]. *)
Definition below (d : Path.t) (rels : list (list string))
    (written : list (list string * string)) : Fs.t :=
  Fs.mk (map (Path.under d) rels)
        (map (fun f => (Path.under d (fst f), snd f)) written).

Fixpoint lookup (rel : list string) (written : list (list string * string))
  : option string :=
  match written with
  | [] => None
  | (r, data) :: rest => if list_eqb r rel then Some data else lookup rel rest
  end.

(** The plan, as components below the destination, last created first. *)
Definition planned : list (list string) :=
  rev (map Path.split_slash folders).

(** The files of a project, as components below the destination, last
    written first. *)
Definition project_files (config : ProjectConfig) (packageManager : string)
  : list (list string * string) :=
  let ts := typescript config in
  let extension := if ts then "ts" else "js" in
  [ (["README.md"], generateReadme (projectName config) ts packageManager);
    ([".gitignore"], generateGitignore);
    ([".env"], generateEnvFile (database config)) ]
  ++ (if ts then [ (["tsconfig.json"], generateTsConfig) ] else [])
  ++ [ (["prisma.config.ts"], generatePrismaConfig);
       (["prisma"; "schema.prisma"], generatePrismaSchema);
       (["src"; "middlewares"; "error.middleware." ++ extension],
        generateErrorMiddleware ts);
       (["src"; "lib"; "prisma." ++ extension], generatePrismaClient ts);
       (["src"; "index." ++ extension], generateIndexFile ts);
       (["package.json"], Json.stringify (generatePackageJson config)) ].

(* ================================================================== *)
(** ** Runs on any file system *)

(** [blocked fs p]: a file stands at [p] or above it, so that no directory
    can be made at [p]. *)
Definition blocked (fs : Fs.t) (p : Path.t) : bool :=
  existsb (fun f => Path.within (fst f) p) (Fs.files fs).

(** Writing files one after the other. *)
Fixpoint write_all (ws : list (Path.t * string)) : Fs.M unit :=
  match ws with
  | [] => Fs.ret tt
  | w :: rest => Fs.writeFileSync (fst w) (snd w) ;; write_all rest
  end.

(** The paths and bodies [writeProjectFiles] writes, in its order. *)
Definition targets (config : ProjectConfig) (packageManager : string)
  : list (Path.t * string) :=
  let projectPath := projectPath config in
  let typescript := typescript config in
  let extension := if typescript then "ts" else "js" in
  [ (Path.join [projectPath; "package.json"],
     Json.stringify (generatePackageJson config));
    (Path.join [projectPath; "src"; "index." ++ extension],
     generateIndexFile typescript);
    (Path.join [projectPath; "src"; "lib"; "prisma." ++ extension],
     generatePrismaClient typescript);
    (Path.join [projectPath; "src"; "middlewares"; "error.middleware." ++ extension],
     generateErrorMiddleware typescript);
    (Path.join [projectPath; "prisma"; "schema.prisma"], generatePrismaSchema);
    (Path.join [projectPath; "prisma.config.ts"], generatePrismaConfig) ]
  ++ (if typescript
      then [ (Path.join [projectPath; "tsconfig.json"], generateTsConfig) ]
      else [])
  ++ [ (Path.join [projectPath; ".env"], generateEnvFile (database config));
       (Path.join [projectPath; ".gitignore"], generateGitignore);
       (Path.join [projectPath; "README.md"],
        generateReadme (projectName config) typescript packageManager) ].


(* ================================================================== *)
(** ** Reading the generated files

    What one generated file says is compared with the others through
    the functions below: the module specifiers of [import] lines, the
    quoted value of a setting, the words of a script's command line and
    the environment variables a source reads. *)

(** [String.prototype.split (c)]. *)
Fixpoint split_at (c : ascii) (s : string) : list string :=
  match s with
  | EmptyString => [EmptyString]
  | String a rest =>
      if Ascii.eqb a c then EmptyString :: split_at c rest
      else
        match split_at c rest with
        | [] => [String a EmptyString]
        | x :: xs => String a x :: xs
        end
  end.

(** Every second element, from the second on: of a line split at its
    double quotes, the texts between quotes. *)
Fixpoint odds (xs : list string) : list string :=
  match xs with
  | _ :: y :: rest => y :: odds rest
  | _ => []
  end.

Definition quoted (line : string) : list string :=
  odds (split_at "034"%char line).

(** The module specifier of an [import] line: its last quoted text. *)
Definition import_of (line : string) : list string :=
  if starts_with "import " line
  then match rev (quoted line) with
       | spec :: _ => [spec]
       | [] => []
       end
  else [].

Definition imports (source : string) : list string :=
  flat_map import_of (split_at "010"%char source).

(** A specifier that names a file next to the importing one. *)
Definition relative (spec : string) : bool :=
  starts_with "./" spec || starts_with "../" spec.

(** The package a bare specifier belongs to: [@scope/name] or [name]. *)
Definition package_of (spec : string) : string :=
  let parts := split_at "/"%char spec in
  if starts_with "@" spec then join_with "/" (firstn 2 parts)
  else hd EmptyString parts.

(** The value of a setting in a configuration file: the quoted texts on
    the first line that starts, two spaces in, with the key. *)
Definition setting (key source : string) : list string :=
  match find (starts_with ("  " ++ key)) (split_at "010"%char source) with
  | Some line => quoted line
  | None => []
  end.

(** The program a script runs: the first word of its command line. *)
Definition program_of (command : string) : string :=
  hd EmptyString (split_at " "%char command).

(** The package whose [bin] provides a program: [tsc] comes with
    [typescript], the others with the package of their own name. *)
Definition provider (program : string) : string :=
  if String.eqb program "tsc" then "typescript" else program.

(** The words of a command line that name a file of the project: the
    value of [--env-file=] and the words with a [/]. *)
Definition file_arguments (command : string) : list string :=
  flat_map (fun word =>
              if starts_with "--env-file=" word
              then [substring 11 (String.length word - 11) word]
              else if mem "/"%char word then [word] else [])
           (split_at " "%char command).

Definition is_upper_or_underscore (c : ascii) : bool :=
  let n := nat_of_ascii c in
  (Nat.leb 65 n && Nat.leb n 90) || Nat.eqb n 95.

(** The longest run of capitals and underscores a text starts with. *)
Fixpoint identifier (s : string) : string :=
  match s with
  | String c rest =>
      if is_upper_or_underscore c then String c (identifier rest) else EmptyString
  | EmptyString => EmptyString
  end.

(** The identifiers that follow the occurrences of [marker]. *)
Fixpoint following (marker s : string) : list string :=
  (if starts_with marker s
   then [identifier (substring (String.length marker)
                       (String.length s - String.length marker) s)]
   else [])
  ++ match s with
     | EmptyString => []
     | String _ rest => following marker rest
     end.

(** The environment variables a generated source reads: through
    [process.env] or through the [env] helper of Prisma's configuration. *)
Definition env_reads (source : string) : list string :=
  following "process.env." source ++ following ("env(" ++ dq) source.

(** The variables an environment file defines: what stands before the
    [=] of each line. *)
Definition env_defined (envfile : string) : list string :=
  flat_map (fun line =>
              match split_at "="%char line with
              | name :: _ :: _ => [name]
              | _ => []
              end)
           (split_at "010"%char envfile).

(** The sources of a generated project that [import]. *)
Definition generated_sources (typescript : bool) : list string :=
  [ generateIndexFile typescript;
    generatePrismaClient typescript;
    generateErrorMiddleware typescript;
    generatePrismaConfig ].

(** The command lines of the manifest's scripts. *)
Definition script_commands (config : ProjectConfig) : list string :=
  match Json.field "scripts" (generatePackageJson config) with
  | Some (JObj scripts) =>
      flat_map (fun kv => match snd kv with JStr c => [c] | _ => [] end) scripts
  | _ => []
  end.

(** The names of the manifest's scripts. *)
Definition script_names (config : ProjectConfig) : list string :=
  match Json.field "scripts" (generatePackageJson config) with
  | Some (JObj scripts) => Json.keys scripts
  | _ => []
  end.

(** The scripts of the manifest in a language mode; no other field of the
    configuration has a part in them. *)
Definition manifest_scripts (typescript : bool) : list string :=
  script_names {| projectName := EmptyString; projectPath := EmptyString;
                  typescript := typescript; database := EmptyString;
                  template := EmptyString |}.

(** The code of an entry of a list of commands: [- `code` - description]. *)
Definition entry_code (line : string) : list string :=
  match split_at "`"%char line with
  | intro :: code :: rest :: _ =>
      if String.eqb intro "- " && starts_with " - " rest then [code] else []
  | _ => []
  end.

Section Examples.

Variables (pm run : string) (names : list string).

(** What a line of the README has to show for its commands: if it ends in
    [install] or in the name of a script, it is the package manager, or
    the run command, followed by that; and if it is an entry of a list of
    commands, its code is the run command followed by a script. *)
Definition runs_with_prefix (line : string) : Prop :=
  (forall script, In script ("install" :: names) ->
     starts_with "#" line = false ->
     ends_with (" " ++ script) line = true ->
     line = (if String.eqb script "install" then pm else run) ++ " " ++ script) /\
  (forall code, In code (entry_code line) ->
     exists script, In script names /\ code = run ++ " " ++ script).

(** A line that shows no command at all. *)
Definition quiet (line : string) : bool :=
  (starts_with "#" line
   || forallb (fun script => negb (ends_with (" " ++ script) line))
        ("install" :: names))
  && match entry_code line with [] => true | _ => false end.

End Examples.

(* ================================================================== *)
(** * Facts about text *)

Lemma append_assoc (a b c : string) : (a ++ b) ++ c = a ++ b ++ c.
Proof. induction a as [|x a IH]; simpl; [reflexivity | now rewrite IH]. Qed.

Lemma unlines_app (xs ys : list string) :
  unlines (xs ++ ys) = unlines xs ++ unlines ys.
Proof.
  induction xs as [|x xs IH]; simpl; [reflexivity|].
  rewrite IH. now rewrite !append_assoc.
Qed.

Lemma starts_with_app (a s t : string) :
  starts_with (a ++ s) (a ++ t) = starts_with s t.
Proof.
  induction a as [|c a IH]; simpl; [reflexivity|].
  now rewrite Ascii.eqb_refl, IH.
Qed.

Lemma starts_with_self (m rest : string) : starts_with m (m ++ rest) = true.
Proof.
  induction m as [|c m IH]; simpl; [reflexivity|].
  now rewrite Ascii.eqb_refl, IH.
Qed.

(** A text that starts with [m] is [m] followed by something. *)
Lemma starts_with_inv (m s : string) :
  starts_with m s = true -> exists rest, s = m ++ rest.
Proof.
  revert s; induction m as [|c m IH]; intros s H.
  - now exists s.
  - destruct s as [|d s]; simpl in H; [discriminate|].
    apply andb_true_iff in H as [Hc Hm].
    apply Ascii.eqb_eq in Hc; subst d.
    destruct (IH _ Hm) as [rest ->]. now exists rest.
Qed.

(** A character that is not in [m] ends every attempt to read [m]. *)
Lemma starts_with_sep (m u v : string) (c : ascii) :
  mem c m = false ->
  starts_with m (u ++ String c v) = starts_with m u.
Proof.
  revert u; induction m as [|a m IH]; intros u Hc; [now destruct u|].
  simpl in Hc. apply orb_false_iff in Hc as [Hac Hm].
  destruct u as [|b u]; simpl.
  - now rewrite Hac.
  - now rewrite IH.
Qed.

Lemma append_nil_r (s : string) : s ++ EmptyString = s.
Proof. induction s as [|c s IH]; simpl; [reflexivity | now rewrite IH]. Qed.

Lemma reverse_app (a b : string) : reverse (a ++ b) = reverse b ++ reverse a.
Proof.
  induction a as [|c a IH]; simpl.
  - now rewrite append_nil_r.
  - now rewrite IH, append_assoc.
Qed.

(** The lines of a text, last line first and each line backwards. *)
Lemma reverse_unlines (ls : list string) :
  reverse (unlines ls)
  = fold_left (fun acc l => nl ++ reverse l ++ acc) ls EmptyString.
Proof.
  assert (H : forall acc,
    fold_left (fun acc l => nl ++ reverse l ++ acc) ls acc
    = reverse (unlines ls) ++ acc).
  { induction ls as [|l ls IH]; intros acc; [reflexivity|].
    cbn [fold_left unlines]. rewrite IH, !reverse_app.
    now rewrite !append_assoc. }
  now rewrite H, append_nil_r.
Qed.

Section Needle.

(** The text looked for. *)
Variable m : string.

Lemma includes_cons (c : ascii) (s : string) :
  includes m (String c s) = starts_with m (String c s) || includes m s.
Proof. reflexivity. Qed.

(** An occurrence of [m] cannot run across a character that [m] lacks. *)
Lemma includes_sep (u v : string) (c : ascii) :
  mem c m = false ->
  includes m (u ++ String c v) = includes m u || includes m v.
Proof.
  intros Hc. induction u as [|b u IH].
  - change (EmptyString ++ String c v) with (String c v).
    rewrite includes_cons.
    change (String c v) with (EmptyString ++ String c v) at 1.
    rewrite starts_with_sep by exact Hc.
    destruct m; reflexivity.
  - change (String b u ++ String c v) with (String b (u ++ String c v)).
    rewrite !includes_cons, <- orb_assoc, <- IH. f_equal.
    apply (starts_with_sep m (String b u) v c Hc).
Qed.

Lemma includes_app_r (pre s : string) :
  includes m s = true -> includes m (pre ++ s) = true.
Proof.
  intros H. induction pre as [|c pre IH]; [exact H|].
  change (String c pre ++ s) with (String c (pre ++ s)).
  rewrite includes_cons, IH. apply orb_true_r.
Qed.

Lemma includes_here (post : string) : includes m (m ++ post) = true.
Proof.
  destruct (m ++ post) eqn:E; simpl.
  - destruct m; [reflexivity | discriminate].
  - rewrite <- E, starts_with_self. reflexivity.
Qed.

(** [includes] decides [Occurs]. *)
Lemma includes_Occurs (s : string) : includes m s = true <-> Occurs m s.
Proof.
  split.
  - induction s as [|c s IH]; simpl; intros H.
    + rewrite orb_false_r in H. destruct m; [|discriminate].
      now exists EmptyString, EmptyString.
    + apply orb_true_iff in H as [H|H].
      * destruct (starts_with_inv _ _ H) as [rest E].
        exists EmptyString, rest. exact E.
      * destruct (IH H) as (pre & post & ->).
        now exists (String c pre), post.
  - intros (pre & post & ->). apply includes_app_r, includes_here.
Qed.

(** In a text made of lines, a needle without a line feed lies in a line. *)
Lemma includes_unlines (ls : list string) :
  mem "010"%char m = false -> is_empty m = false ->
  includes m (unlines ls) = existsb (includes m) ls.
Proof.
  intros Hnl Hne. induction ls as [|l ls IH]; simpl.
  - rewrite orb_false_r. destruct m; [discriminate | reflexivity].
  - change (l ++ nl ++ unlines ls) with (l ++ String "010"%char (unlines ls)).
    now rewrite includes_sep, IH.
Qed.

End Needle.

Lemma list_eqb_refl (xs : list string) : list_eqb xs xs = true.
Proof.
  induction xs as [|x xs IH]; simpl; [reflexivity|].
  now rewrite String.eqb_refl.
Qed.

Lemma list_eqb_eq (xs ys : list string) : list_eqb xs ys = true <-> xs = ys.
Proof.
  split; [|intros ->; apply list_eqb_refl].
  revert ys; induction xs as [|x xs IH]; intros [|y ys] H;
    simpl in H; try discriminate; [reflexivity|].
  apply andb_true_iff in H as [Hx Hxs].
  apply String.eqb_eq in Hx. now rewrite Hx, (IH _ Hxs).
Qed.

Lemma list_eqb_app (s a b : list string) :
  list_eqb (s ++ a) (s ++ b) = list_eqb a b.
Proof.
  induction s as [|x s IH]; simpl; [reflexivity|].
  now rewrite String.eqb_refl.
Qed.

Lemma prefixb_app (s a b : list string) :
  prefixb (s ++ a) (s ++ b) = prefixb a b.
Proof.
  induction s as [|x s IH]; simpl; [reflexivity|].
  now rewrite String.eqb_refl.
Qed.

(* ================================================================== *)
(** * Facts about paths and the file system *)

Section PathFacts.

Lemma split_slash_not_nil (s : string) : Path.split_slash s <> [].
Proof.
  induction s as [|c s IH]; simpl; [discriminate|].
  destruct (Ascii.eqb c "/"); [discriminate|].
  destruct (Path.split_slash s); discriminate.
Qed.

(** Splitting a text around one of its separators. *)
Lemma split_slash_app (a b : string) :
  Path.split_slash (a ++ String "/" b) = (Path.split_slash a ++ Path.split_slash b)%list.
Proof.
  induction a as [|c a IH]; simpl; [reflexivity|].
  destruct (Ascii.eqb c "/"); rewrite IH; [reflexivity|].
  pose proof (split_slash_not_nil a) as Hne.
  destruct (Path.split_slash a) as [|x xs]; [contradiction | reflexivity].
Qed.

(** Plain components are kept as they come. *)
Lemma fold_step_plain (above : bool) (names stack : list string) :
  forallb Path.plain names = true ->
  fold_left (Path.step above) names stack = (rev names ++ stack)%list.
Proof.
  revert stack; induction names as [|x names IH]; intros stack H;
    [reflexivity|].
  simpl in H. apply andb_true_iff in H as [Hx Hnames].
  simpl. rewrite (IH _ Hnames), <- app_assoc. simpl. f_equal.
  unfold Path.plain in Hx. apply negb_true_iff in Hx.
  apply orb_false_iff in Hx as [Hx Hdd]. unfold Path.step.
  now rewrite Hx, Hdd.
Qed.

Lemma isAbsolute_app (c : ascii) (p rest : string) :
  Path.isAbsolute (String c p ++ rest) = Path.isAbsolute (String c p).
Proof. unfold Path.isAbsolute. simpl. now rewrite !andb_true_r. Qed.

(** [join] of a destination and relative pieces: the pieces' components
    are added below the destination. *)
Lemma join_under (p : string) (rest : list string) :
  let x := join_with "/" (filter (fun s => negb (is_empty s)) rest) in
  Path.isAbsolute x = false ->
  forallb Path.plain (Path.split_slash x) = true ->
  Path.join (p :: rest) = Path.under (Path.join [p]) (Path.split_slash x).
Proof.
  intros x Habs Hplain. unfold Path.join, Path.under, Path.normalizeString.
  destruct p as [|c p]; cbn [filter is_empty negb join_with Path.absolute Path.segs].
  - fold x. rewrite Habs. simpl. f_equal.
    rewrite fold_step_plain by exact Hplain.
    now rewrite app_nil_r, rev_involutive.
  - fold x.
    assert (Hx : filter (fun s => negb (is_empty s)) rest <> []).
    { intro E. subst x. rewrite E in Hplain. discriminate. }
    destruct (filter (fun s => negb (is_empty s)) rest) as [|r rs] eqn:E;
      [contradiction|].
    change (join_with "/" (String c p :: r :: rs))
      with (String c p ++ String "/" (join_with "/" (r :: rs))).
    fold x. change ("/" ++ x) with (String "/"%char x).
    rewrite isAbsolute_app. f_equal.
    rewrite split_slash_app, fold_left_app.
    rewrite fold_step_plain by exact Hplain.
    now rewrite rev_app_distr, rev_involutive.
Qed.

End PathFacts.

Section Destination.

(** The directory a project is generated in. *)
Variable d : Path.t.

Lemma under_nil : Path.under d [] = d.
Proof. destruct d. unfold Path.under. simpl. now rewrite app_nil_r. Qed.

Lemma eqb_under (a b : list string) :
  Path.eqb (Path.under d a) (Path.under d b) = list_eqb a b.
Proof.
  unfold Path.eqb, Path.under. simpl.
  now rewrite Bool.eqb_reflx, list_eqb_app.
Qed.

Lemma within_under (a b : list string) :
  Path.within (Path.under d a) (Path.under d b) = prefixb a b.
Proof.
  unfold Path.within, Path.under. simpl.
  now rewrite Bool.eqb_reflx, prefixb_app.
Qed.

Lemma parent_under (rel : list string) :
  rel <> [] -> Path.parent (Path.under d rel) = Path.under d (removelast rel).
Proof.
  intros H. unfold Path.parent, Path.under. simpl.
  now rewrite removelast_app.
Qed.

(** *** The file system below the destination *)

Lemma given_under (rel : list string) :
  forallb (fun s => String.eqb s "..") rel = false ->
  Fs.given (Path.under d rel) = false.
Proof.
  intros H. unfold Fs.given, Path.under. simpl.
  rewrite forallb_app, H. apply andb_false_r.
Qed.

Lemma is_dir_below rels written (rel : list string) :
  Fs.is_dir (below d rels written) (Path.under d rel)
  = Fs.given (Path.under d rel) || existsb (prefixb rel) rels.
Proof.
  unfold Fs.is_dir, below. simpl. f_equal.
  induction rels as [|r rels IH]; simpl; [reflexivity|].
  now rewrite within_under, IH.
Qed.

Lemma read_below rels written (rel : list string) :
  Fs.read (below d rels written) (Path.under d rel) = lookup rel written.
Proof.
  unfold Fs.read, below. simpl.
  induction written as [|[r data] written IH]; simpl; [reflexivity|].
  rewrite eqb_under. destruct (list_eqb r rel); [reflexivity | exact IH].
Qed.

Lemma is_file_below rels written (rel : list string) :
  Fs.is_file (below d rels written) (Path.under d rel)
  = existsb (fun f => list_eqb (fst f) rel) written.
Proof.
  unfold Fs.is_file, below. simpl.
  induction written as [|[r data] written IH]; simpl; [reflexivity|].
  now rewrite eqb_under, IH.
Qed.

(** Writing a file into a folder that exists. *)
Lemma writeFileSync_below rels written (rel : list string)
    (data : string) :
  rel <> [] ->
  forallb (fun s => String.eqb s "..") rel = false ->
  existsb (prefixb rel) rels = false ->
  existsb (prefixb (removelast rel)) rels = true ->
  Fs.writeFileSync (Path.under d rel) data (below d rels written)
  = inr (tt, below d rels ((rel, data) :: written)).
Proof.
  intros Hne Hdd Hfree Hdir. unfold Fs.writeFileSync.
  rewrite is_dir_below, (given_under _ Hdd), Hfree. simpl.
  rewrite parent_under by exact Hne.
  rewrite is_dir_below, Hdir, orb_true_r. reflexivity.
Qed.

End Destination.

(** Rewrites every [join] of a destination and literal pieces into the
    components it adds below the destination. *)
Ltac join_below :=
  repeat match goal with
  | |- context [Path.join (?p :: ?r :: ?rs)] =>
      let rel := eval vm_compute in
        (Path.split_slash
           (join_with "/" (filter (fun s => negb (is_empty s)) (r :: rs)))) in
      replace (Path.join (p :: r :: rs)) with (Path.under (Path.join [p]) rel)
        by (symmetry; apply join_under; reflexivity)
  end.

(* ================================================================== *)
(** * A generation run on a fresh destination *)

Lemma createProjectStructure_fresh (p : string) :
  createProjectStructure p Fs.empty = inr (tt, below (Path.join [p]) planned []).
Proof.
  unfold createProjectStructure, folders. cbn [Fs.forEach].
  join_below. generalize (Path.join [p]); intros d. reflexivity.
Qed.

Lemma writeProjectFiles_planned (config : ProjectConfig) (pm : string) :
  writeProjectFiles config pm (below (Path.join [projectPath config]) planned [])
  = inr (tt, below (Path.join [projectPath config]) planned
               (project_files config pm)).
Proof.
  destruct config as [name p ts db tpl].
  unfold writeProjectFiles, project_files.
  cbn [projectName projectPath typescript database template].
  destruct ts; join_below; generalize (Path.join [p]); intros d;
    unfold Fs.bind;
    repeat (first
      [ rewrite writeFileSync_below by (discriminate || reflexivity)
      | progress cbv beta iota delta [Fs.ret] ]);
    reflexivity.
Qed.

Lemma scaffold_fresh (config : ProjectConfig) (pm : string) :
  scaffold config pm Fs.empty
  = inr (tt, below (Path.join [projectPath config]) planned
               (project_files config pm)).
Proof.
  unfold scaffold, Fs.bind at 1.
  rewrite createProjectStructure_fresh. apply writeProjectFiles_planned.
Qed.


(* ================================================================== *)
(** * The generated project *)

Lemma files_below (d : Path.t) rels written (f : Path.t * string) :
  In f (Fs.files (below d rels written)) ->
  exists rel data, In (rel, data) written /\ f = (Path.under d rel, data).
Proof.
  unfold below. simpl. intros H. apply in_map_iff in H as ([rel data] & E & H).
  exists rel, data. simpl in E. now split.
Qed.

(** Where the materializer writes, below the destination. *)
Lemma project_files_names (config : ProjectConfig) (pm : string) :
  map fst (project_files config pm)
  = if typescript config
    then [ ["README.md"]; [".gitignore"]; [".env"]; ["tsconfig.json"];
           ["prisma.config.ts"]; ["prisma"; "schema.prisma"];
           ["src"; "middlewares"; "error.middleware.ts"];
           ["src"; "lib"; "prisma.ts"]; ["src"; "index.ts"]; ["package.json"] ]
    else [ ["README.md"]; [".gitignore"]; [".env"];
           ["prisma.config.ts"]; ["prisma"; "schema.prisma"];
           ["src"; "middlewares"; "error.middleware.js"];
           ["src"; "lib"; "prisma.js"]; ["src"; "index.js"]; ["package.json"] ].
Proof. destruct config as [name p [|] db tpl]; reflexivity. Qed.

Lemma written_below (config : ProjectConfig) (pm : string) (d : Path.t)
    (f : Path.t * string) :
  In f (Fs.files (below d planned (project_files config pm))) ->
  exists rel, fst f = Path.under d rel
              /\ In rel (map fst (project_files config pm)).
Proof.
  intros H. apply files_below in H as (rel & data & H & ->).
  exists rel. split; [reflexivity|].
  apply (in_map fst) in H. exact H.
Qed.

Lemma basename_under (d : Path.t) (rel : list string) :
  rel <> [] -> Path.basename (Path.under d rel) = last rel EmptyString.
Proof.
  intros H. unfold Path.basename, Path.under. simpl.
  rewrite (app_removelast_last EmptyString H), app_assoc.
  now rewrite !last_last.
Qed.

(** C1. The language mode decides, for all generated files together: in
    TypeScript mode the entry point, the Prisma client wrapper and the error
    middleware are written as [.ts] files (and every file written below
    [src] is a [.ts] file), the manifest's [main] is [dist/index.js] and its
    scripts have a [build] entry; in JavaScript mode the three files are
    [.js] files, [main] is [src/index.js] and there is no [build] script. *)
Theorem language_mode_consistency (config : ProjectConfig) (pm : string) :
  exists fs,
    scaffold config pm Fs.empty = inr (tt, fs) /\
    Fs.read fs (Path.join [projectPath config; "package.json"])
      = Some (Json.stringify (generatePackageJson config)) /\
    (typescript config = true ->
       Fs.read fs (Path.join [projectPath config; "src"; "index.ts"])
         = Some (generateIndexFile true) /\
       Fs.read fs (Path.join [projectPath config; "src"; "lib"; "prisma.ts"])
         = Some (generatePrismaClient true) /\
       Fs.read fs (Path.join [projectPath config; "src"; "middlewares";
                              "error.middleware.ts"])
         = Some (generateErrorMiddleware true) /\
       (forall f, In f (Fs.files fs) ->
          Path.within (Path.join [projectPath config; "src"]) (fst f) = true ->
          ends_with ".ts" (Path.basename (fst f)) = true) /\
       Json.at_path ["main"] (generatePackageJson config)
         = Some (JStr "dist/index.js") /\
       Json.at_path ["scripts"; "build"] (generatePackageJson config)
         = Some (JStr "tsc")) /\
    (typescript config = false ->
       Fs.read fs (Path.join [projectPath config; "src"; "index.js"])
         = Some (generateIndexFile false) /\
       Fs.read fs (Path.join [projectPath config; "src"; "lib"; "prisma.js"])
         = Some (generatePrismaClient false) /\
       Fs.read fs (Path.join [projectPath config; "src"; "middlewares";
                              "error.middleware.js"])
         = Some (generateErrorMiddleware false) /\
       (forall f, In f (Fs.files fs) ->
          Path.within (Path.join [projectPath config; "src"]) (fst f) = true ->
          ends_with ".js" (Path.basename (fst f)) = true) /\
       Json.at_path ["main"] (generatePackageJson config)
         = Some (JStr "src/index.js") /\
       Json.at_path ["scripts"; "build"] (generatePackageJson config) = None).
Proof.
  exists (below (Path.join [projectPath config]) planned
            (project_files config pm)).
  split; [apply scaffold_fresh|].
  assert (Hsrc : forall (ext : string) f,
    (forall rel, In rel (map fst (project_files config pm)) ->
       prefixb ["src"] rel = true -> ends_with ext (last rel EmptyString) = true) ->
    In f (Fs.files (below (Path.join [projectPath config]) planned
                      (project_files config pm))) ->
    Path.within (Path.under (Path.join [projectPath config]) ["src"]) (fst f)
      = true ->
    ends_with ext (Path.basename (fst f)) = true).
  { intros ext f Hall Hin. apply written_below in Hin as (rel & -> & Hrel).
    rewrite within_under. intros Hw.
    rewrite basename_under; [now apply Hall|].
    intros ->. discriminate Hw. }
  destruct config as [name p ts db tpl].
  cbn [projectName projectPath typescript database template] in *.
  split; [|split]; [| intros -> | intros ->].
  - join_below. now rewrite read_below; destruct ts.
  - join_below. rewrite !read_below. repeat split; try reflexivity.
    intros f. apply Hsrc. rewrite project_files_names. intros rel Hrel.
    cbn in Hrel. intuition (subst; first [discriminate | reflexivity]).
  - join_below. rewrite !read_below. repeat split; try reflexivity.
    intros f. apply Hsrc. rewrite project_files_names. intros rel Hrel.
    cbn in Hrel. intuition (subst; first [discriminate | reflexivity]).
Qed.

(** C4. [prisma.config.ts] is written in both language modes;
    [tsconfig.json] is written exactly in TypeScript mode, where its content
    is JSON text: [JSON.parse] reads it back as the value that was
    serialised. *)
Theorem tsconfig_only_in_typescript_mode (config : ProjectConfig) (pm : string) :
  exists fs,
    scaffold config pm Fs.empty = inr (tt, fs) /\
    Fs.read fs (Path.join [projectPath config; "prisma.config.ts"])
      = Some generatePrismaConfig /\
    (typescript config = true ->
       Fs.read fs (Path.join [projectPath config; "tsconfig.json"])
         = Some generateTsConfig /\
       exists v, Json.parse generateTsConfig = Some v
                 /\ Json.stringify v = generateTsConfig) /\
    (typescript config = false ->
       Fs.read fs (Path.join [projectPath config; "tsconfig.json"]) = None /\
       Fs.is_file fs (Path.join [projectPath config; "tsconfig.json"]) = false).
Proof.
  exists (below (Path.join [projectPath config]) planned
            (project_files config pm)).
  split; [apply scaffold_fresh|].
  destruct config as [name p ts db tpl].
  cbn [projectName projectPath typescript database template].
  join_below. rewrite !read_below.
  split; [now destruct ts|]. split; intros ->.
  - split; [reflexivity|].
    eexists. split; vm_compute; reflexivity.
  - split; [reflexivity|].
    rewrite is_file_below. reflexivity.
Qed.

(** C7. The planner creates the same twelve folders whatever the
    configuration says, [src/types] included in JavaScript mode, and every
    file the materializer writes lies directly in one of them or in the
    destination itself. *)
Theorem directory_plan_is_fixed_and_total (config : ProjectConfig) (pm : string) :
  exists fs,
    scaffold config pm Fs.empty = inr (tt, fs) /\
    createProjectStructure (projectPath config) Fs.empty
      = inr (tt, Fs.mk (Fs.dirs fs) []) /\
    Fs.dirs fs
      = rev (map (fun folder => Path.join [projectPath config; folder])
               [ "src"; "src/controllers"; "src/models"; "src/routes";
                 "src/middlewares"; "src/config"; "src/utils"; "src/lib";
                 "src/types"; "public"; "prisma"; "requests" ]) /\
    Fs.is_dir fs (Path.join [projectPath config; "src/types"]) = true /\
    (forall f, In f (Fs.files fs) ->
       Path.parent (fst f) = Path.join [projectPath config] \/
       exists folder,
         In folder folders /\
         Path.parent (fst f) = Path.join [projectPath config; folder]).
Proof.
  exists (below (Path.join [projectPath config]) planned
            (project_files config pm)).
  split; [apply scaffold_fresh|].
  split; [apply createProjectStructure_fresh|].
  split; [|split].
  - cbn [map rev app]. join_below. reflexivity.
  - join_below. rewrite is_dir_below. apply orb_true_r.
  - intros f Hin. apply written_below in Hin as (rel & -> & Hrel).
    assert (Hfolder : forall folder names,
      In folder folders ->
      Path.isAbsolute folder = false ->
      forallb Path.plain (Path.split_slash folder) = true ->
      names = Path.split_slash folder ->
      exists folder,
        In folder folders /\
        Path.under (Path.join [projectPath config]) names
        = Path.join [projectPath config; folder]).
    { intros folder names Hin Habs Hplain ->. exists folder.
      split; [exact Hin|]. symmetry.
      rewrite (join_under (projectPath config) [folder]);
        cbn [filter is_empty negb join_with];
        destruct folder; try discriminate; auto. }
    rewrite project_files_names in Hrel.
    destruct (typescript config); cbn in Hrel;
      repeat (destruct Hrel as [<- | Hrel]); try contradiction;
      rewrite parent_under by discriminate; cbn [removelast];
      first
        [ left; apply under_nil
        | right; apply (Hfolder "src"); [cbn; tauto | reflexivity ..]
        | right; apply (Hfolder "src/lib"); [cbn; tauto | reflexivity ..]
        | right; apply (Hfolder "src/middlewares"); [cbn; tauto | reflexivity ..]
        | right; apply (Hfolder "prisma"); [cbn; tauto | reflexivity ..] ].
Qed.

(** C3. The example of the specification: a TypeScript project named
    demo-api, generated for pnpm. *)
Theorem demo_api_scenario :
  exists fs,
    scaffold demo_config "pnpm" Fs.empty = inr (tt, fs) /\
    (exists manifest v,
       Fs.read fs (Path.join ["/tmp/demo-api"; "package.json"]) = Some manifest /\
       Json.parse manifest = Some v /\
       Json.at_path ["scripts"; "dev"] v
         = Some (JStr "tsx watch --env-file=.env src/index.ts")) /\
    (exists tsconfig v,
       Fs.read fs (Path.join ["/tmp/demo-api"; "tsconfig.json"]) = Some tsconfig /\
       Json.parse tsconfig = Some v /\
       Json.at_path ["compilerOptions"; "strict"] v = Some (JBool true)) /\
    (exists index,
       Fs.read fs (Path.join ["/tmp/demo-api"; "src"; "index.ts"]) = Some index /\
       includes ("import errorHandler from " ++ q "./middlewares/error.middleware" ++ ";")
         index = true /\
       includes "error.middleware." index = false) /\
    (exists readme,
       Fs.read fs (Path.join ["/tmp/demo-api"; "README.md"]) = Some readme /\
       includes "pnpm approve-builds" readme = true).
Proof.
  exists (below (Path.join [projectPath demo_config]) planned
            (project_files demo_config "pnpm")).
  split; [apply scaffold_fresh|].
  change "/tmp/demo-api" with (projectPath demo_config).
  join_below. rewrite !read_below.
  split; [|split; [|split]].
  - eexists; eexists. split; [reflexivity|]. split; vm_compute; reflexivity.
  - eexists; eexists. split; [reflexivity|]. split; vm_compute; reflexivity.
  - eexists. split; [reflexivity|]. split; vm_compute; reflexivity.
  - eexists. split; [reflexivity|]. vm_compute; reflexivity.
Qed.

(* ================================================================== *)
(** * Fields the generators do not consult *)

(** C6. Two configurations that differ only in [database] give the same
    rendered bodies and the same writes, and the environment file has its
    fixed content for every database. *)
Theorem database_is_not_consulted (c1 c2 : ProjectConfig) (pm : string) :
  projectName c1 = projectName c2 ->
  projectPath c1 = projectPath c2 ->
  typescript c1 = typescript c2 ->
  template c1 = template c2 ->
  (forall fs, writeProjectFiles c1 pm fs = writeProjectFiles c2 pm fs) /\
  (forall fs, scaffold c1 pm fs = scaffold c2 pm fs) /\
  generatePackageJson c1 = generatePackageJson c2 /\
  generateIndexFile (typescript c1) = generateIndexFile (typescript c2) /\
  generatePrismaClient (typescript c1) = generatePrismaClient (typescript c2) /\
  generateErrorMiddleware (typescript c1) = generateErrorMiddleware (typescript c2) /\
  generateEnvFile (database c1) = generateEnvFile (database c2) /\
  generateReadme (projectName c1) (typescript c1) pm
    = generateReadme (projectName c2) (typescript c2) pm /\
  (forall database,
     generateEnvFile database
     = unlines [ "PORT=3000";
                 "NODE_ENV=development";
                 "DATABASE_URL=" ++ q "file:./dev.db" ]).
Proof.
  destruct c1 as [name1 p1 ts1 db1 tpl1], c2 as [name2 p2 ts2 db2 tpl2].
  cbn [projectName projectPath typescript database template].
  intros -> -> -> ->.
  assert (Hwrite : forall fs,
    writeProjectFiles (Build_ProjectConfig name2 p2 ts2 db1 tpl2) pm fs
    = writeProjectFiles (Build_ProjectConfig name2 p2 ts2 db2 tpl2) pm fs)
    by (intros fs; reflexivity).
  split; [exact Hwrite|]. split.
  - intros fs. unfold scaffold, Fs.bind.
    cbn [projectPath]. destruct (createProjectStructure p2 fs) as [e|[u fs']];
      [reflexivity | apply Hwrite].
  - repeat split; reflexivity.
Qed.

(** C6 at the sample configuration, with PostgreSQL in place of SQLite. *)
Lemma database_is_not_consulted_witness :
  (forall fs, writeProjectFiles demo_config "pnpm" fs
              = writeProjectFiles demo_config_postgres "pnpm" fs)
  /\ generateEnvFile "sqlite" = generateEnvFile "postgresql".
Proof.
  pose proof (database_is_not_consulted demo_config demo_config_postgres "pnpm"
                eq_refl eq_refl eq_refl eq_refl) as H.
  split; [apply H | apply H].
Defined.

(** C9. Two configurations that differ only in [template] give the same
    rendered bodies and the same writes, with the same outcome on every
    file system; on a fresh destination the run succeeds. *)
Theorem template_is_ignored (c1 c2 : ProjectConfig) (pm : string) :
  projectName c1 = projectName c2 ->
  projectPath c1 = projectPath c2 ->
  typescript c1 = typescript c2 ->
  database c1 = database c2 ->
  (forall fs, writeProjectFiles c1 pm fs = writeProjectFiles c2 pm fs) /\
  (forall fs, scaffold c1 pm fs = scaffold c2 pm fs) /\
  generatePackageJson c1 = generatePackageJson c2 /\
  generateIndexFile (typescript c1) = generateIndexFile (typescript c2) /\
  generatePrismaClient (typescript c1) = generatePrismaClient (typescript c2) /\
  generateErrorMiddleware (typescript c1) = generateErrorMiddleware (typescript c2) /\
  generateEnvFile (database c1) = generateEnvFile (database c2) /\
  generateReadme (projectName c1) (typescript c1) pm
    = generateReadme (projectName c2) (typescript c2) pm /\
  (exists fs, scaffold c1 pm Fs.empty = inr (tt, fs)) /\
  (exists fs, scaffold c2 pm Fs.empty = inr (tt, fs)).
Proof.
  intros Hname Hpath Hts Hdb.
  assert (Hrun : forall c, exists fs, scaffold c pm Fs.empty = inr (tt, fs))
    by (intros c; eexists; apply scaffold_fresh).
  destruct c1 as [name1 p1 ts1 db1 tpl1], c2 as [name2 p2 ts2 db2 tpl2].
  cbn [projectName projectPath typescript database template] in *.
  subst name1 p1 ts1 db1.
  assert (Hwrite : forall fs,
    writeProjectFiles (Build_ProjectConfig name2 p2 ts2 db2 tpl1) pm fs
    = writeProjectFiles (Build_ProjectConfig name2 p2 ts2 db2 tpl2) pm fs)
    by (intros fs; reflexivity).
  split; [exact Hwrite|]. split.
  - intros fs. unfold scaffold, Fs.bind.
    cbn [projectPath]. destruct (createProjectStructure p2 fs) as [e|[u fs']];
      [reflexivity | apply Hwrite].
  - repeat split; try reflexivity; apply Hrun.
Qed.

(** C9 at the sample configuration, with another template name. *)
Lemma template_is_ignored_witness :
  (forall fs, writeProjectFiles demo_config "pnpm" fs
              = writeProjectFiles demo_config_minimal "pnpm" fs)
  /\ exists fs, scaffold demo_config_minimal "pnpm" Fs.empty = inr (tt, fs).
Proof.
  pose proof (template_is_ignored demo_config demo_config_minimal "pnpm"
                eq_refl eq_refl eq_refl eq_refl) as H.
  split; [apply H | apply H].
Defined.

(* ================================================================== *)
(** * The manifest *)



(* ================================================================== *)
(** * The error middleware *)

(** C5 does not hold as stated: the TypeScript handler remaps the two
    codes only on an instance of [Prisma.PrismaClientKnownRequestError],
    the JavaScript handler on any error that carries them. *)
Lemma foreign_error_code_is_not_remapped :
  Handler.code foreign_P2002 = Handler.Str "P2002" /\
  Handler.status (Handler.errorHandler true Handler.Undefined foreign_P2002 200) = 500 /\
  Handler.status (Handler.errorHandler false Handler.Undefined foreign_P2002 200) = 409.
Proof. repeat split. Qed.

(** C5, amended. On an instance of [Prisma.PrismaClientKnownRequestError]
    both handlers answer P2002 with 409 and a message built from
    [meta.target], and P2025 with 404 and a message built from [meta.cause];
    any other code keeps the response's status, 500 in place of the default
    200, and the error's message.  The body's stack is [null] in production
    and the error's stack otherwise.  On such instances the two handlers
    agree; on other errors only the JavaScript handler remaps the codes.
    Both texts hold the shared statements, and only the TypeScript text
    holds the [instanceof] guard. *)
Theorem error_middleware_behaviour
    (ts : bool) (NODE_ENV : Handler.value) (err : Handler.Err) (statusCode : nat) :
  let reply := Handler.errorHandler ts NODE_ENV err statusCode in
  let fallback := if Nat.eqb statusCode 200 then 500 else statusCode in
  (Handler.known err = true \/ ts = false ->
   Handler.equals (Handler.code err) "P2002" = true ->
   Handler.status reply = 409 /\
   Handler.json_message reply
   = "Duplicate field value: "
       ++ Handler.to_string (Handler.meta_field Handler.target err)) /\
  (Handler.known err = true \/ ts = false ->
   Handler.equals (Handler.code err) "P2025" = true ->
   Handler.status reply = 404 /\
   Handler.json_message reply
   = "Resource not found: "
       ++ Handler.to_string (Handler.meta_field Handler.cause err)) /\
  (Handler.equals (Handler.code err) "P2002" = false ->
   Handler.equals (Handler.code err) "P2025" = false ->
   Handler.status reply = fallback /\
   Handler.json_message reply = Handler.message err) /\
  (ts = true -> Handler.known err = false ->
   Handler.status reply = fallback /\
   Handler.json_message reply = Handler.message err) /\
  Handler.json_stack reply
    = (if Handler.equals NODE_ENV "production"
       then Handler.Null else Handler.stack err) /\
  (Handler.known err = true ->
   Handler.errorHandler true NODE_ENV err statusCode
   = Handler.errorHandler false NODE_ENV err statusCode) /\
  Forall (fun statement =>
            includes statement (generateErrorMiddleware ts) = true)
         handler_statements /\
  includes "if (err instanceof Prisma.PrismaClientKnownRequestError) {"
    (generateErrorMiddleware ts) = ts.
Proof.
  intros reply fallback. subst reply fallback.
  assert (Hcodes : forall c,
    Handler.equals c "P2025" = true -> Handler.equals c "P2002" = false).
  { intros [| |s]; simpl; try discriminate.
    intros H. apply String.eqb_eq in H. now subst s. }
  unfold Handler.errorHandler, Handler.errorHandler_ts, Handler.errorHandler_js.
  split; [|split; [|split; [|split; [|split; [|split; [|split]]]]]].
  - intros Hmode Hc.
    destruct Hmode as [Hk | ->]; [destruct ts|]; rewrite ?Hk, Hc; now split.
  - intros Hmode Hc. pose proof (Hcodes _ Hc) as Hc'.
    destruct Hmode as [Hk | ->]; [destruct ts|]; rewrite ?Hk, Hc, Hc'; now split.
  - intros H2 H5.
    destruct ts; [destruct (Handler.known err)|]; rewrite ?H2, ?H5;
      destruct (Nat.eqb statusCode 200); now split.
  - intros -> ->. destruct (Nat.eqb statusCode 200); now split.
  - destruct ts; [destruct (Handler.known err)|];
      destruct (Handler.equals (Handler.code err) "P2002");
      destruct (Handler.equals (Handler.code err) "P2025"); reflexivity.
  - intros ->. reflexivity.
  - destruct ts; unfold handler_statements;
      repeat (constructor; [vm_compute; reflexivity|]); constructor.
  - destruct ts; vm_compute; reflexivity.
Qed.

(* ================================================================== *)
(** * The documentation *)

Lemma has_line_in (l : string) (ls : list string) :
  In l ls -> has_line l (unlines ls) = true.
Proof.
  unfold has_line. induction ls as [|x ls IH]; intros H; [destruct H|].
  destruct H as [->|H].
  - cbn [unlines]. rewrite <- append_assoc, starts_with_self. reflexivity.
  - apply orb_true_iff. right. cbn [unlines].
    apply IH, orb_true_iff in H as [H|H].
    + apply starts_with_inv in H as [rest ->].
      rewrite <- (append_assoc x nl). rewrite append_assoc.
      apply includes_app_r.
      replace (nl ++ (l ++ nl) ++ rest) with ((nl ++ l ++ nl) ++ rest)
        by now rewrite !append_assoc.
      apply includes_here.
    + now apply includes_app_r, includes_app_r.
Qed.

Lemma existsb_false {A : Type} (f : A -> bool) (xs : list A) :
  (forall x, In x xs -> f x = false) -> existsb f xs = false.
Proof.
  induction xs as [|x xs IH]; intros H; [reflexivity|]. simpl.
  rewrite (H x (or_introl eq_refl)), IH; [reflexivity|].
  intros y Hy. apply H. now right.
Qed.

(** The position of a line in an explicit list of lines. *)
Ltac index_of l ls :=
  match ls with
  | ?x :: _ => let _ := match goal with _ => constr_eq l x end in constr:(O)
  | _ :: ?rest => let n := index_of l rest in constr:(S n)
  end.

Ltac find_line :=
  apply has_line_in; cbn [app];
  lazymatch goal with
  | |- In ?l ?ls =>
      let n := index_of l ls in
      apply (nth_error_In ls n); reflexivity
  end.

(** *** The lines of the README, one by one *)

Lemma mem_app (c : ascii) (a b : string) : mem c (a ++ b) = mem c a || mem c b.
Proof.
  induction a as [|x a IH]; [reflexivity|]. simpl. now rewrite IH, orb_assoc.
Qed.

(** Splitting a text that starts with a piece without the separator. *)
Lemma split_at_prefix (c : ascii) (x t : string) :
  mem c x = false ->
  split_at c (x ++ t)
  = match split_at c t with
    | [] => [x]
    | a :: rest => (x ++ a) :: rest
    end.
Proof.
  intros H. induction x as [|a x IH].
  - simpl. destruct (split_at c t) eqn:E; [|reflexivity].
    destruct t as [|b t]; simpl in E; [discriminate|].
    destruct (Ascii.eqb b c); [discriminate|].
    destruct (split_at c t); discriminate.
  - simpl in H. apply orb_false_iff in H as [Ha Hx].
    simpl. rewrite Ha, (IH Hx). now destruct (split_at c t).
Qed.

(** The lines of a text made of lines without a line break are those
    lines, and the empty text after the last line break. *)
Lemma split_at_unlines (ls : list string) :
  Forall (fun l => mem "010"%char l = false) ls ->
  split_at "010"%char (unlines ls) = (ls ++ [EmptyString])%list.
Proof.
  induction 1 as [|l ls Hl _ IH]; [reflexivity|].
  cbn [unlines app]. rewrite (split_at_prefix _ l) by exact Hl.
  change (nl ++ unlines ls) with (String "010"%char (unlines ls)).
  cbn [split_at]. rewrite Ascii.eqb_refl, IH. now rewrite append_nil_r.
Qed.

Lemma entry_code_none (line : string) :
  mem "`"%char line = false -> entry_code line = [].
Proof.
  intros H. unfold entry_code.
  rewrite <- (append_nil_r line), (split_at_prefix _ line EmptyString) by exact H.
  reflexivity.
Qed.

(** The code of an entry whose code starts with a text without a
    backquote. *)
Lemma entry_code_entry (run t : string) :
  mem "`"%char run = false ->
  entry_code ("- `" ++ run ++ t)
  = match split_at "`"%char t with
    | a :: rest :: _ => if starts_with " - " rest then [run ++ a] else []
    | _ => []
    end.
Proof.
  intros H. unfold entry_code.
  change ("- `" ++ run ++ t) with ("- " ++ String "`"%char (run ++ t)).
  rewrite (split_at_prefix _ "- ") by reflexivity.
  cbn [split_at]. rewrite Ascii.eqb_refl.
  rewrite (split_at_prefix _ run t) by exact H.
  destruct (split_at "`"%char t) as [|a [|rest more]]; reflexivity.
Qed.

Lemma quiet_runs_with_prefix (pm run : string) (names : list string)
    (line : string) :
  quiet names line = true -> runs_with_prefix pm run names line.
Proof.
  unfold quiet. intros H. apply andb_true_iff in H as [Hends Hcode]. split.
  - intros script Hin Hc He. rewrite Hc in Hends. cbn [orb] in Hends.
    rewrite forallb_forall in Hends. specialize (Hends _ Hin).
    rewrite He in Hends. discriminate.
  - intros code Hin. destruct (entry_code line); [destruct Hin | discriminate].
Qed.

(** Goes through the lines of a list put together from literal pieces and
    conditional ones. *)
Ltac each_line tac :=
  repeat first
    [ apply Forall_nil
    | apply Forall_cons;
      [ first [ tac
              | match goal with
                | |- context [if ?b then _ else _] => destruct b
                end; tac ]
      | ]
    | apply Forall_app; split
    | match goal with
      | |- Forall _ (if ?b then _ else _) => destruct b
      end ].

(** A line without a given character, its variable parts being without
    it. *)
Ltac without_char :=
  first [ reflexivity
        | rewrite ?mem_app; cbn [mem append Ascii.eqb Bool.eqb orb];
          repeat match goal with
                 | H : mem _ _ = false |- _ => rewrite H
                 end;
          reflexivity ].

(** A line with a variable part: each name it could end in is tried. *)
Ltac ends_in_script :=
  let script := fresh "script" in
  let Hin := fresh "Hin" in
  let Hc := fresh "Hc" in
  let He := fresh "He" in
  intros script Hin Hc He; cbn [In] in Hin;
  repeat (destruct Hin as [<-|Hin];
          [ first [ discriminate Hc
                  | reflexivity
                  | exfalso; unfold ends_with in He;
                    cbn [reverse append] in He; rewrite ?reverse_app in He;
                    cbn in He; discriminate He ] |]);
  destruct Hin.

Ltac entry_of_script :=
  let code := fresh "code" in
  let Hin := fresh "Hin" in
  intros code Hin;
  first [ rewrite entry_code_none in Hin by without_char; destruct Hin
        | rewrite entry_code_entry in Hin by assumption;
          cbn in Hin; destruct Hin as [<-|[]];
          eexists; split; [|reflexivity]; cbn; tauto ].

Ltac command_line :=
  first [ apply quiet_runs_with_prefix; vm_compute; reflexivity
        | split; [ends_in_script | entry_of_script] ].

(** Every line of the README, for a project name and a package manager
    that fit on a line and hold no backquote. *)
Lemma readme_lines_run_with_prefix
    (projectName : string) (typescript : bool) (packageManager : string) :
  mem "010"%char projectName = false ->
  mem "010"%char packageManager = false ->
  mem "`"%char projectName = false ->
  mem "`"%char packageManager = false ->
  let run := if String.eqb packageManager "npm" then "npm run" else packageManager in
  forall line,
    In line (split_at "010"%char
               (generateReadme projectName typescript packageManager)) ->
    runs_with_prefix packageManager run (manifest_scripts typescript) line.
Proof.
  intros Hname_nl Hpm_nl Hname_bq Hpm_bq run.
  assert (Hrun_nl : mem "010"%char run = false)
    by (subst run; destruct (String.eqb packageManager "npm");
        [reflexivity | exact Hpm_nl]).
  assert (Hrun_bq : mem "`"%char run = false)
    by (subst run; destruct (String.eqb packageManager "npm");
        [reflexivity | exact Hpm_bq]).
  unfold generateReadme. cbv zeta. fold run. clearbody run.
  intros line Hline.
  rewrite split_at_unlines in Hline
    by (destruct typescript; each_line without_char).
  apply in_app_or in Hline as [Hline|[<-|[]]].
  2:{ apply quiet_runs_with_prefix. destruct typescript; vm_compute; reflexivity. }
  revert line Hline. apply Forall_forall.
  destruct typescript; each_line command_line.
Qed.

(** C10. Whatever the package manager string is, the README's install
    example starts with it, and every example that runs a script starts
    with it as well, unless it is npm, which becomes [npm run]; no
    string is refused.  And no example has another prefix: where the
    project name and the package manager fit on a line and hold no
    backquote, a line of the README that is no heading or comment and ends
    in [install] or in the name of a script of the manifest is the package
    manager, or the run command, followed by that name, and the code of
    every entry of a list of commands is the run command followed by a
    script of the manifest. *)
Theorem package_manager_is_embedded_verbatim
    (projectName : string) (typescript : bool) (packageManager : string) :
  has_line (packageManager ++ " install")
    (generateReadme projectName typescript packageManager) = true /\
  (packageManager <> "npm" ->
   Forall (fun example =>
             has_line example
               (generateReadme projectName typescript packageManager) = true)
          (script_examples packageManager typescript)) /\
  (packageManager = "npm" ->
   Forall (fun example =>
             has_line example
               (generateReadme projectName typescript packageManager) = true)
          (script_examples "npm run" typescript)) /\
  (mem "010"%char projectName = false ->
   mem "010"%char packageManager = false ->
   mem "`"%char projectName = false ->
   mem "`"%char packageManager = false ->
   forall line,
     In line (split_at "010"%char
                (generateReadme projectName typescript packageManager)) ->
     (forall script,
        In script ("install" :: manifest_scripts typescript) ->
        starts_with "#" line = false ->
        ends_with (" " ++ script) line = true ->
        line = (if String.eqb script "install" then packageManager
                else if String.eqb packageManager "npm" then "npm run"
                     else packageManager)
               ++ " " ++ script) /\
     (forall code,
        In code (entry_code line) ->
        exists script,
          In script (manifest_scripts typescript) /\
          code = (if String.eqb packageManager "npm" then "npm run"
                  else packageManager) ++ " " ++ script)).
Proof.
  split; [|split; [|split]];
    [ | | | exact (readme_lines_run_with_prefix
                     projectName typescript packageManager) ];
    unfold generateReadme, script_examples; cbv zeta.
  - destruct (String.eqb packageManager "pnpm"), typescript; find_line.
  - intros Hnpm. apply String.eqb_neq in Hnpm. rewrite Hnpm.
    destruct (String.eqb packageManager "pnpm"), typescript; cbn [app];
      repeat (constructor; [find_line|]); constructor.
  - intros ->. cbn [String.eqb Ascii.eqb Bool.eqb].
    destruct typescript; cbn [app];
      repeat (constructor; [find_line|]); constructor.
Qed.

(** Rewrites a line made of literal text and at most one variable part,
    as far as the text [approve-builds] can occur in it. *)
Ltac no_approve_builds Hname Hpm :=
  lazymatch goal with
  | |- includes _ ?line = false =>
      lazymatch line with
      | ("# " ++ ?v)%string =>
          change line with ("#" ++ String " "%char v);
          rewrite includes_sep by reflexivity; rewrite ?Hname, ?Hpm; reflexivity
      | ("- `" ++ ?v ++ ?rest)%string =>
          change line with ("- " ++ String "`"%char (v ++ rest));
          rewrite !includes_sep by reflexivity; rewrite ?Hname, ?Hpm; reflexivity
      | (?v ++ String ?c ?rest)%string =>
          rewrite includes_sep by reflexivity; rewrite ?Hname, ?Hpm; reflexivity
      | _ => reflexivity
      end
  end.

(** C8. The README holds the instructions on approving native builds
    exactly when the package manager is pnpm: its opening is followed by
    the section on them, and its closing is preceded by the troubleshooting
    entry on them, if and only if the package manager is pnpm.  For any
    other package manager the text [approve-builds] occurs nowhere in the
    README, unless the project name or the package manager string itself
    brings it in. *)
Theorem approve_builds_only_for_pnpm
    (projectName : string) (typescript : bool) (packageManager : string) :
  let readme := generateReadme projectName typescript packageManager in
  (starts_with (unlines (readme_opening projectName ++ approve_builds_section))
     readme = true
   <-> packageManager = "pnpm") /\
  (ends_with (unlines (approve_builds_troubleshooting ++ readme_closing))
     readme = true
   <-> packageManager = "pnpm") /\
  (packageManager = "pnpm" ->
   includes (unlines approve_builds_section) readme = true /\
   includes (unlines approve_builds_troubleshooting) readme = true) /\
  (packageManager <> "pnpm" ->
   includes "approve-builds" projectName = false ->
   includes "approve-builds" packageManager = false ->
   includes "approve-builds" readme = false).
Proof.
  intros readme.
  assert (Hslot :
    starts_with (unlines (readme_opening projectName ++ approve_builds_section))
      readme
    = String.eqb packageManager "pnpm").
  { subst readme. unfold generateReadme, readme_opening. cbv zeta.
    rewrite !(unlines_app [ "# " ++ projectName; _; _; _; _; _; _; _ ]).
    rewrite starts_with_app.
    destruct (String.eqb packageManager "pnpm").
    - rewrite unlines_app. apply starts_with_self.
    - reflexivity. }
  assert (Hend :
    ends_with (unlines (approve_builds_troubleshooting ++ readme_closing))
      readme
    = String.eqb packageManager "pnpm").
  { subst readme. unfold ends_with, generateReadme. cbv zeta.
    rewrite !reverse_unlines.
    destruct (String.eqb packageManager "pnpm"), typescript;
      cbn [app fold_left]; rewrite ?reverse_app;
      vm_compute; reflexivity. }
  split; [|split; [|split]].
  - rewrite Hslot. apply String.eqb_eq.
  - rewrite Hend. apply String.eqb_eq.
  - intros ->. subst readme. unfold generateReadme. cbv zeta.
    cbn [String.eqb Ascii.eqb Bool.eqb].
    destruct typescript; rewrite !unlines_app; split;
      repeat (first [ apply includes_here | apply includes_app_r ]).
  - intros Hpnpm Hname Hpm. apply String.eqb_neq in Hpnpm.
    subst readme. unfold generateReadme. cbv zeta. rewrite Hpnpm.
    rewrite includes_unlines by reflexivity.
    apply existsb_false. intros line Hline.
    destruct (String.eqb packageManager "npm"), typescript;
      cbn [app] in Hline;
      repeat (destruct Hline as [<- | Hline]; [no_approve_builds Hname Hpm|]);
      destruct Hline.
Qed.

(* ================================================================== *)
(** * The planner and the materializer on any file system *)

Lemma path_eqb_eq (a b : Path.t) : Path.eqb a b = true <-> a = b.
Proof.
  destruct a as [aa sa], b as [ab sb]. unfold Path.eqb. simpl.
  rewrite andb_true_iff, list_eqb_eq, Bool.eqb_true_iff.
  split; [intros [-> ->]; reflexivity | intros H; injection H; auto].
Qed.




Lemma existsb_rev {A : Type} (f : A -> bool) (xs : list A) :
  existsb f (rev xs) = existsb f xs.
Proof.
  induction xs as [|x xs IH]; [reflexivity|].
  simpl. rewrite existsb_app, IH. simpl.
  rewrite orb_false_r. apply orb_comm.
Qed.

Lemma existsb_map_compose {A B : Type} (f : B -> bool) (g : A -> B) (xs : list A) :
  existsb f (map g xs) = existsb (fun x => f (g x)) xs.
Proof. induction xs as [|x xs IH]; simpl; [reflexivity | now rewrite IH]. Qed.

Section Folders.

Context {A : Type} (g : A -> Path.t).

(** Making a list of directories: the first blocked one stops the loop. *)
Lemma forEach_mkdirSync (xs : list A) (fs : Fs.t) :
  Fs.forEach xs (fun x => Fs.mkdirSync (g x)) fs
  = match find (fun x => blocked fs (g x)) xs with
    | Some x => inl (if Fs.file_above fs (g x)
                     then Fs.ENOTDIR (g x) else Fs.EEXIST (g x))
    | None => inr (tt, Fs.mk (rev (map g xs) ++ Fs.dirs fs) (Fs.files fs))
    end.
Proof.
  revert fs; induction xs as [|x xs IH]; intros fs; [now destruct fs|].
  cbn [Fs.forEach find]. unfold Fs.bind, Fs.mkdirSync at 1. fold (blocked fs (g x)).
  destruct (blocked fs (g x)); [reflexivity|].
  rewrite IH. unfold blocked, Fs.file_above. cbn [Fs.files Fs.dirs map rev].
  destruct (find _ xs); [reflexivity|].
  now rewrite <- app_assoc.
Qed.

Lemma is_dir_after_mkdirs (xs : list A) (fs : Fs.t) (q : Path.t) :
  Fs.is_dir (Fs.mk (rev (map g xs) ++ Fs.dirs fs) (Fs.files fs)) q
  = Fs.is_dir fs q || existsb (fun x => Path.within q (g x)) xs.
Proof.
  unfold Fs.is_dir. cbn [Fs.dirs].
  rewrite existsb_app, existsb_rev, existsb_map_compose.
  destruct (Fs.given q); [reflexivity|]. cbn [orb]. apply orb_comm.
Qed.

(** Making them again changes nothing that can be observed. *)
Lemma forEach_mkdirSync_again (xs : list A) (fs fs' : Fs.t) :
  Fs.forEach xs (fun x => Fs.mkdirSync (g x)) fs = inr (tt, fs') ->
  exists fs'',
    Fs.forEach xs (fun x => Fs.mkdirSync (g x)) fs' = inr (tt, fs'') /\
    Fs.files fs'' = Fs.files fs' /\
    (forall q, Fs.is_dir fs'' q = Fs.is_dir fs' q).
Proof.
  rewrite !forEach_mkdirSync.
  destruct (find _ xs) eqn:E; [discriminate|].
  intros H. injection H as <-.
  assert (E' :
    find (fun x => blocked (Fs.mk (rev (map g xs) ++ Fs.dirs fs) (Fs.files fs))
                     (g x)) xs = None) by exact E.
  rewrite E'. eexists. split; [reflexivity|]. split; [reflexivity|].
  intros q. cbn [Fs.files Fs.dirs].
  change (Fs.files fs)
    with (Fs.files (Fs.mk (rev (map g xs) ++ Fs.dirs fs) (Fs.files fs))) at 1.
  change (rev (map g xs) ++ rev (map g xs) ++ Fs.dirs fs)%list
    with (rev (map g xs)
          ++ Fs.dirs (Fs.mk (rev (map g xs) ++ Fs.dirs fs) (Fs.files fs)))%list.
  rewrite (is_dir_after_mkdirs xs (Fs.mk _ _)), is_dir_after_mkdirs.
  rewrite <- orb_assoc, orb_diag. reflexivity.
Qed.

End Folders.




(** X2. A planner run that succeeds leaves every file as it was and adds
    directories only: afterwards a path is a directory when it was one
    before, or is one of the twelve folders or lies above one. *)
Theorem planner_only_adds_directories (projectPath : string) (fs fs' : Fs.t) :
  createProjectStructure projectPath fs = inr (tt, fs') ->
  Fs.files fs' = Fs.files fs /\
  (forall q, Fs.read fs' q = Fs.read fs q) /\
  (forall q,
     Fs.is_dir fs' q
     = Fs.is_dir fs q
       || existsb (fun folder => Path.within q (Path.join [projectPath; folder]))
            folders).
Proof.
  unfold createProjectStructure.
  rewrite (forEach_mkdirSync (fun folder => Path.join [projectPath; folder])).
  destruct (find _ folders); [discriminate|].
  intros H. injection H as <-. split; [reflexivity|]. split; [reflexivity|].
  intros q.
  exact (is_dir_after_mkdirs
           (fun folder => Path.join [projectPath; folder]) folders fs q).
Qed.

(** X3. The planner is idempotent: where it has succeeded it succeeds
    again, and the second run changes neither a file nor which paths are
    directories. *)
Theorem planner_is_idempotent (projectPath : string) (fs fs' : Fs.t) :
  createProjectStructure projectPath fs = inr (tt, fs') ->
  exists fs'',
    createProjectStructure projectPath fs' = inr (tt, fs'') /\
    Fs.files fs'' = Fs.files fs' /\
    (forall q, Fs.is_dir fs'' q = Fs.is_dir fs' q).
Proof.
  unfold createProjectStructure. apply forEach_mkdirSync_again.
Qed.

(** Writing a list of files, none of which lies where another one needs a
    directory: the first path that is a directory, or whose directory is
    missing, stops the run. *)
Lemma write_all_run (ws : list (Path.t * string)) (fs : Fs.t) :
  (forall w w', In w ws -> In w' ws ->
     Path.within (fst w) (Path.parent (fst w')) = false) ->
  write_all ws fs
  = match find (fun w => Fs.is_dir fs (fst w)
                         || negb (Fs.is_dir fs (Path.parent (fst w)))) ws with
    | Some w => inl (if Fs.is_dir fs (fst w) then Fs.EISDIR (fst w)
                     else if blocked fs (Path.parent (fst w))
                          then Fs.ENOTDIR (fst w) else Fs.ENOENT (fst w))
    | None => inr (tt, Fs.mk (Fs.dirs fs) (rev ws ++ Fs.files fs))
    end.
Proof.
  revert fs; induction ws as [|[p data] ws IH]; intros fs Hapart;
    [now destruct fs|].
  cbn [write_all find fst snd]. unfold Fs.bind, Fs.writeFileSync at 1.
  fold (blocked fs (Path.parent p)).
  destruct (Fs.is_dir fs p) eqn:Hw; cbn [orb negb fst];
    [now rewrite ?Hw|].
  destruct (Fs.is_dir fs (Path.parent p)) eqn:Hp; cbn [negb fst];
    [|now rewrite ?Hw].
  rewrite IH by (intros w w' Hin Hin'; apply Hapart; now right).
  unfold Fs.is_dir. cbn [Fs.dirs Fs.files rev].
  destruct (find _ ws) as [w|] eqn:E.
  - apply find_some in E as [Hin _].
    pose proof (Hapart (p, data) w (or_introl eq_refl) (or_intror Hin)) as Ha.
    unfold blocked. cbn [Fs.files existsb fst] in *. rewrite Ha.
    reflexivity.
  - now rewrite <- app_assoc.
Qed.

Lemma bind_ret_tt (m : Fs.M unit) (fs : Fs.t) :
  Fs.bind m (fun _ => Fs.ret tt) fs = m fs.
Proof. unfold Fs.bind, Fs.ret. now destruct (m fs) as [e|[[] fs']]. Qed.

Lemma writeProjectFiles_targets (config : ProjectConfig) (pm : string) (fs : Fs.t) :
  writeProjectFiles config pm fs = write_all (targets config pm) fs.
Proof.
  destruct config as [name p ts db tpl].
  unfold writeProjectFiles, targets.
  cbn [projectName projectPath typescript database template].
  destruct ts; cbn [app write_all fst snd]; unfold Fs.bind;
    repeat first
      [ progress cbv beta iota delta [Fs.ret]
      | match goal with
        | |- context [Fs.writeFileSync ?q ?data ?s] =>
            destruct (Fs.writeFileSync q data s) as [e|[[] ?]]; [reflexivity|]
        end ];
    reflexivity.
Qed.


(** The targets, last first, are the files of a project below the
    destination. *)
Lemma targets_below (config : ProjectConfig) (pm : string) :
  rev (targets config pm)
  = Fs.files (below (Path.join [projectPath config]) [] (project_files config pm)).
Proof.
  destruct config as [name p ts db tpl]. unfold targets, project_files, below.
  cbn [projectName projectPath typescript database template].
  destruct ts; cbn [map app rev fst snd Fs.files]; join_below; reflexivity.
Qed.

(** No target lies where another target needs a directory. *)
Lemma targets_apart (config : ProjectConfig) (pm : string)
    (w w' : Path.t * string) :
  In w (targets config pm) -> In w' (targets config pm) ->
  Path.within (fst w) (Path.parent (fst w')) = false.
Proof.
  intros Hw Hw'. apply in_rev in Hw, Hw'. rewrite targets_below in Hw, Hw'.
  apply files_below in Hw as (rel & data & Hin & ->).
  apply files_below in Hw' as (rel' & data' & Hin' & ->).
  apply (in_map fst) in Hin, Hin'.
  rewrite project_files_names in Hin, Hin'. cbn [fst] in *.
  destruct (typescript config);
    match type of Hin with
    | In _ ?names =>
        assert (Hall :
          forallb (fun r =>
                     forallb (fun r' =>
                                match r' with
                                | [] => false
                                | _ => negb (prefixb r (removelast r'))
                                end) names) names = true) by reflexivity
    end;
    rewrite forallb_forall in Hall; specialize (Hall _ Hin);
    rewrite forallb_forall in Hall; specialize (Hall _ Hin');
    (destruct rel' as [|x rel']; [discriminate|]);
    rewrite parent_under by discriminate; rewrite within_under;
    now apply negb_true_iff.
Qed.

Lemma find_app {A : Type} (f : A -> bool) (xs ys : list A) :
  find f (xs ++ ys)
  = match find f xs with Some x => Some x | None => find f ys end.
Proof.
  induction xs as [|x xs IH]; [reflexivity|]. simpl.
  destruct (f x); [reflexivity | exact IH].
Qed.

Lemma find_none_iff {A : Type} (f : A -> bool) (xs : list A) :
  find f xs = None <-> forall x, In x xs -> f x = false.
Proof.
  split; [apply find_none|].
  induction xs as [|x xs IH]; intros H; [reflexivity|]. simpl.
  rewrite (H x (or_introl eq_refl)). apply IH. intros y Hy. apply H. now right.
Qed.


(** Each file of a project is found under its own name. *)
Lemma lookup_project_files (config : ProjectConfig) (pm : string)
    (rel : list string) (data : string) :
  In (rel, data) (project_files config pm) ->
  lookup rel (project_files config pm) = Some data.
Proof.
  destruct config as [name p ts db tpl]. unfold project_files.
  cbn [projectName projectPath typescript database template].
  destruct ts; cbn [app In]; intros Hin;
    repeat (destruct Hin as [Hin|Hin];
              [injection Hin as <- <-; reflexivity|]);
    destruct Hin.
Qed.

(** After its writes, each target reads as what was written there. *)
Lemma read_target (config : ProjectConfig) (pm : string)
    (ds : list Path.t) (old : list (Path.t * string)) (w : Path.t * string) :
  In w (targets config pm) ->
  Fs.read (Fs.mk ds (rev (targets config pm) ++ old)) (fst w) = Some (snd w).
Proof.
  intros Hin. apply in_rev in Hin. rewrite targets_below in *.
  apply files_below in Hin as (rel & data & Hin & ->). cbn [fst snd].
  pose proof (read_below (Path.join [projectPath config]) []
                (project_files config pm) rel) as Hread.
  rewrite (lookup_project_files _ _ _ _ Hin) in Hread.
  unfold Fs.read in *. cbn [Fs.files]. rewrite find_app.
  destruct (find _ (Fs.files (below _ [] (project_files config pm))));
    [exact Hread | discriminate].
Qed.

(** A path that is no target reads as before the writes. *)
Lemma read_other (ws old : list (Path.t * string)) (ds ds' : list Path.t)
    (q : Path.t) :
  (forall w, In w ws -> fst w <> q) ->
  Fs.read (Fs.mk ds (rev ws ++ old)) q = Fs.read (Fs.mk ds' old) q.
Proof.
  intros Hq. unfold Fs.read. cbn [Fs.files]. rewrite find_app.
  assert (E : find (fun f => Path.eqb (fst f) q) (rev ws) = None).
  { apply find_none_iff. intros w Hin. apply in_rev in Hin.
    destruct (Path.eqb (fst w) q) eqn:Heq; [|reflexivity].
    apply path_eqb_eq in Heq. now apply Hq in Hin. }
  now rewrite E.
Qed.

(** X5. A materializer run that succeeds adds its files and nothing else:
    the directories are as before, every target holds its renderer's
    output, every other path reads as before, and no file is lost. *)
Theorem materializer_frame (config : ProjectConfig) (pm : string) (fs fs' : Fs.t) :
  writeProjectFiles config pm fs = inr (tt, fs') ->
  Fs.dirs fs' = Fs.dirs fs /\
  Fs.files fs' = (rev (targets config pm) ++ Fs.files fs)%list /\
  (forall w, In w (targets config pm) -> Fs.read fs' (fst w) = Some (snd w)) /\
  (forall q, (forall w, In w (targets config pm) -> fst w <> q) ->
             Fs.read fs' q = Fs.read fs q) /\
  (forall q, Fs.is_file fs q = true -> Fs.is_file fs' q = true).
Proof.
  rewrite writeProjectFiles_targets, write_all_run by apply targets_apart.
  remember (targets config pm) as ws eqn:Hws.
  destruct (find _ ws); [discriminate|].
  intros H. injection H as <-.
  split; [reflexivity|]. split; [reflexivity|]. split; [|split].
  - intros w Hin. subst ws. now apply read_target.
  - intros q Hq. destruct fs as [ds old]. now apply read_other.
  - intros q Hq. unfold Fs.is_file in *. cbn [Fs.files].
    rewrite existsb_app, Hq. apply orb_true_r.
Qed.

(** X6. The materializer creates no directory: run without the planner
    on an empty file system it throws [ENOENT], at [package.json] where the
    destination itself is missing and at the entry point otherwise. *)
Theorem materializer_needs_the_planner (config : ProjectConfig) (pm : string) :
  writeProjectFiles config pm Fs.empty
  = inl (Fs.ENOENT
           (if Fs.given (Path.join [projectPath config])
            then Path.join [projectPath config; "src";
                            "index." ++ (if typescript config then "ts" else "js")]
            else Path.join [projectPath config; "package.json"])).
Proof.
  rewrite writeProjectFiles_targets, write_all_run by apply targets_apart.
  destruct config as [name p ts db tpl]. unfold targets.
  cbn [projectName projectPath typescript database template].
  destruct ts; cbn [app find fst]; join_below;
    unfold Fs.is_dir, Fs.empty, blocked; cbn [Fs.dirs Fs.files existsb];
    rewrite !parent_under by discriminate; cbn [removelast];
    rewrite under_nil, !orb_false_r;
    rewrite !given_under by reflexivity;
    destruct (Fs.given (Path.join [p])); cbn [orb negb];
    cbv beta iota; cbn [fst orb];
    rewrite ?given_under by reflexivity; reflexivity.
Qed.

(* ================================================================== *)
(** * A whole run on any file system *)





(* ================================================================== *)
(** * Generating again into the same destination *)

Section Again.

Variable d : Path.t.

Lemma mkdirSync_over rels written (rel : list string) :
  existsb (fun r => prefixb r rel) (map fst written) = false ->
  Fs.mkdirSync (Path.under d rel) (below d rels written)
  = inr (tt, below d (rel :: rels) written).
Proof.
  intros H. unfold Fs.mkdirSync, below. cbn [Fs.files Fs.dirs map].
  rewrite existsb_map_compose. cbn [fst].
  rewrite existsb_map_compose in H.
  assert (E : existsb (fun f : list string * string =>
                         Path.within (Path.under d (fst f)) (Path.under d rel))
                written = false).
  { rewrite <- H. clear H.
    induction written as [|f written IH]; [reflexivity|]. simpl.
    now rewrite within_under, IH. }
  now rewrite E.
Qed.

Lemma is_dir_twice rels written written' (q : Path.t) :
  Fs.is_dir (below d (rels ++ rels) written) q = Fs.is_dir (below d rels written') q.
Proof.
  unfold Fs.is_dir, below. cbn [Fs.dirs].
  now rewrite map_app, existsb_app, orb_diag.
Qed.

End Again.

Lemma find_twice {A : Type} (f : A -> bool) (xs : list A) :
  find f (xs ++ xs) = find f xs.
Proof. rewrite find_app. now destruct (find f xs). Qed.

(** A run over the project that an earlier run has left. *)
Lemma scaffold_over (c1 c2 : ProjectConfig) (pm1 pm2 : string) :
  projectPath c1 = projectPath c2 ->
  scaffold c2 pm2
    (below (Path.join [projectPath c1]) planned (project_files c1 pm1))
  = inr (tt, below (Path.join [projectPath c1]) (planned ++ planned)
               (project_files c2 pm2 ++ project_files c1 pm1)).
Proof.
  destruct c1 as [name1 p ts1 db1 tpl1], c2 as [name2 p2 ts2 db2 tpl2].
  cbn [projectPath]. intros <-.
  unfold scaffold, createProjectStructure, folders.
  cbn [Fs.forEach projectPath]. unfold writeProjectFiles.
  cbn [projectName projectPath typescript database template].
  destruct ts1, ts2; join_below; generalize (Path.join [p]); intros d;
    unfold Fs.bind;
    repeat (rewrite mkdirSync_over by reflexivity);
    cbv beta iota delta [Fs.ret];
    repeat (first
      [ rewrite writeFileSync_below by (discriminate || reflexivity)
      | progress cbv beta iota delta [Fs.ret] ]);
    reflexivity.
Qed.

(** X8. Generating into a destination that already holds a generated
    project succeeds, whatever the two configurations are: the files of the
    second run read as its renderers' output, every other path reads as the
    first run left it, and the directories are the same. *)
Theorem regeneration_succeeds_in_place (c1 c2 : ProjectConfig) (pm1 pm2 : string) :
  projectPath c1 = projectPath c2 ->
  exists fs1 fs2,
    scaffold c1 pm1 Fs.empty = inr (tt, fs1) /\
    scaffold c2 pm2 fs1 = inr (tt, fs2) /\
    (forall w, In w (targets c2 pm2) -> Fs.read fs2 (fst w) = Some (snd w)) /\
    (forall q, (forall w, In w (targets c2 pm2) -> fst w <> q) ->
               Fs.read fs2 q = Fs.read fs1 q) /\
    (forall q, Fs.is_dir fs2 q = Fs.is_dir fs1 q).
Proof.
  intros Hpath. eexists. eexists.
  split; [apply scaffold_fresh|]. split; [now apply scaffold_over|].
  assert (Hfiles :
    Fs.files (below (Path.join [projectPath c1]) (planned ++ planned)
                (project_files c2 pm2 ++ project_files c1 pm1))
    = (rev (targets c2 pm2)
       ++ Fs.files (below (Path.join [projectPath c1]) planned
                      (project_files c1 pm1)))%list).
  { rewrite targets_below, <- Hpath. unfold below. cbn [Fs.files].
    apply map_app. }
  split; [|split].
  - intros w Hin. unfold Fs.read at 1. rewrite Hfiles.
    now apply (read_target c2 pm2 [] _ w).
  - intros q Hq. unfold Fs.read at 1. rewrite Hfiles.
    now apply (read_other (targets c2 pm2) _ [] []).
  - intros q. apply is_dir_twice.
Qed.

(** X9. Generation is idempotent: a second run with the same
    configuration succeeds and changes neither what any path reads as nor
    which paths are directories. *)
Theorem regeneration_is_idempotent (config : ProjectConfig) (pm : string) :
  exists fs1 fs2,
    scaffold config pm Fs.empty = inr (tt, fs1) /\
    scaffold config pm fs1 = inr (tt, fs2) /\
    (forall q, Fs.read fs2 q = Fs.read fs1 q) /\
    (forall q, Fs.is_file fs2 q = Fs.is_file fs1 q) /\
    (forall q, Fs.is_dir fs2 q = Fs.is_dir fs1 q).
Proof.
  eexists. eexists.
  split; [apply scaffold_fresh|]. split; [now apply scaffold_over|].
  split; [|split].
  - intros q. unfold Fs.read, below. cbn [Fs.files].
    now rewrite map_app, find_twice.
  - intros q. unfold Fs.is_file, below. cbn [Fs.files].
    now rewrite map_app, existsb_app, orb_diag.
  - intros q. apply is_dir_twice.
Qed.

(** X10. Nothing is cleaned up: generating a JavaScript project over a
    TypeScript one leaves [tsconfig.json] and the three [.ts] sources in
    place, with the content of the first run, beside the new [.js] files. *)
Theorem mode_switch_keeps_typescript_files
    (c1 c2 : ProjectConfig) (pm1 pm2 : string) :
  projectPath c1 = projectPath c2 ->
  typescript c1 = true ->
  typescript c2 = false ->
  exists fs1 fs2,
    scaffold c1 pm1 Fs.empty = inr (tt, fs1) /\
    scaffold c2 pm2 fs1 = inr (tt, fs2) /\
    Fs.read fs2 (Path.join [projectPath c2; "tsconfig.json"])
      = Some generateTsConfig /\
    Fs.read fs2 (Path.join [projectPath c2; "src"; "index.ts"])
      = Some (generateIndexFile true) /\
    Fs.read fs2 (Path.join [projectPath c2; "src"; "lib"; "prisma.ts"])
      = Some (generatePrismaClient true) /\
    Fs.read fs2 (Path.join [projectPath c2; "src"; "middlewares";
                            "error.middleware.ts"])
      = Some (generateErrorMiddleware true) /\
    Fs.read fs2 (Path.join [projectPath c2; "src"; "index.js"])
      = Some (generateIndexFile false) /\
    Fs.read fs2 (Path.join [projectPath c2; "package.json"])
      = Some (Json.stringify (generatePackageJson c2)).
Proof.
  intros Hpath Hts1 Hts2. eexists. eexists.
  split; [apply scaffold_fresh|]. split; [now apply scaffold_over|].
  destruct c1 as [name1 p ts1 db1 tpl1], c2 as [name2 p2 ts2 db2 tpl2].
  cbn [projectName projectPath typescript database template] in *.
  subst p2 ts1 ts2. join_below. rewrite !read_below.
  repeat split.
Qed.

(* ================================================================== *)
(** * What the generated files say about each other *)

Example imports_demo :
  imports (generateIndexFile true) = ["express"; "./middlewares/error.middleware"]
  /\ imports (generatePrismaConfig) = ["dotenv/config"; "prisma/config"]
  /\ imports (generateErrorMiddleware false) = []
  /\ package_of "@prisma/adapter-better-sqlite3" = "@prisma/adapter-better-sqlite3"
  /\ package_of "dotenv/config" = "dotenv"
  /\ setting "output" generatePrismaSchema = ["../src/lib/generated/prisma"].
Proof. vm_compute. repeat split. Qed.

(** [join] of a destination and relative pieces, which may step up and
    down: the pieces' components act on the components of the destination. *)
Lemma join_relative (p : string) (rest : list string) :
  let x := join_with "/" (filter (fun s => negb (is_empty s)) rest) in
  Path.isAbsolute x = false ->
  is_empty x = false ->
  Path.join (p :: rest)
  = Path.mk (Path.absolute (Path.join [p]))
      (rev (fold_left (Path.step (negb (Path.absolute (Path.join [p]))))
              (Path.split_slash x) (rev (Path.segs (Path.join [p]))))).
Proof.
  intros x Habs Hne. unfold Path.join, Path.normalizeString.
  destruct p as [|c p]; cbn [filter is_empty negb join_with Path.absolute Path.segs].
  - fold x. rewrite Habs. reflexivity.
  - fold x.
    destruct (filter (fun s => negb (is_empty s)) rest) as [|r rs] eqn:E;
      [subst x; discriminate|].
    change (join_with "/" (String c p :: r :: rs))
      with (String c p ++ String "/" (join_with "/" (r :: rs))).
    fold x. change ("/" ++ x) with (String "/"%char x).
    rewrite isAbsolute_app, split_slash_app, fold_left_app.
    now rewrite rev_involutive.
Qed.

(** Normalises every [join] of a destination and literal pieces whose
    steps up stay below the destination. *)
Ltac join_rel :=
  repeat match goal with
  | |- context [Path.join (?p :: ?r :: ?rs)] =>
      rewrite (join_relative p (r :: rs)) by reflexivity
  end;
  repeat match goal with
  | |- context [fold_left (Path.step ?a) ?names ?st] =>
      let names' := eval vm_compute in names in
      change (fold_left (Path.step a) names st)
        with (fold_left (Path.step a) names' st);
      cbn [fold_left];
      repeat match goal with
      | |- context [Path.step a ?stack ?seg] =>
          let r := eval cbv in (Path.step a stack seg) in
          change (Path.step a stack seg) with r
      end
  end;
  cbn [rev]; rewrite ?rev_involutive, <- ?app_assoc; cbn [app].

Lemma under_eq (d : Path.t) (rel : list string) :
  Path.mk (Path.absolute d) (Path.segs d ++ rel) = Path.under d rel.
Proof. reflexivity. Qed.

(** X11. The relative imports of the generated sources lead where the
    other files say: the entry point imports the error middleware that is
    written, and the Prisma wrapper and the TypeScript error middleware
    import from the directory that [schema.prisma] names as the output of
    the client generator; [.gitignore] has a line for a directory above
    that one, and the run writes nothing into it. *)
Theorem relative_imports_resolve (config : ProjectConfig) (pm : string) :
  let p := projectPath config in
  let ts := typescript config in
  exists fs client,
    scaffold config pm Fs.empty = inr (tt, fs) /\
    (forall output, In output (setting "output" generatePrismaSchema) ->
       client = Path.join [p; "prisma"; output]) /\
    setting "output" generatePrismaSchema <> [] /\
    (forall spec, In spec (imports (generateIndexFile ts)) ->
       relative spec = true ->
       Fs.is_file fs
         (Path.join [p; "src"; spec ++ (if ts then ".ts" else EmptyString)])
       = true) /\
    (forall spec, In spec (imports (generatePrismaClient ts)) ->
       relative spec = true ->
       Path.within client (Path.join [p; "src"; "lib"; spec]) = true) /\
    (forall spec, In spec (imports (generateErrorMiddleware ts)) ->
       relative spec = true ->
       Path.within client (Path.join [p; "src"; "middlewares"; spec]) = true) /\
    (exists line, In line (split_at "010"%char generateGitignore) /\
                  is_empty line = false /\
                  Path.within (Path.join [p; line]) client = true) /\
    (forall f, In f (Fs.files fs) -> Path.within client (fst f) = false).
Proof.
  intros p ts. subst p ts.
  exists (below (Path.join [projectPath config]) planned (project_files config pm)).
  exists (Path.under (Path.join [projectPath config])
            ["src"; "lib"; "generated"; "prisma"]).
  split; [apply scaffold_fresh|].
  destruct config as [name p ts db tpl].
  cbn [projectName projectPath typescript database template].
  split; [|split; [|split; [|split; [|split; [|split]]]]].
  - intros output Hin. vm_compute in Hin. destruct Hin as [<-|[]].
    join_rel. reflexivity.
  - vm_compute. discriminate.
  - intros spec Hin Hrel.
    destruct ts; vm_compute in Hin;
      repeat (destruct Hin as [<-|Hin]; [try discriminate Hrel|]);
      try contradiction;
      cbn [String.append]; join_rel; rewrite under_eq, is_file_below; reflexivity.
  - intros spec Hin Hrel.
    destruct ts; vm_compute in Hin;
      repeat (destruct Hin as [<-|Hin]; [try discriminate Hrel|]);
      try contradiction;
      join_rel; rewrite under_eq, within_under; reflexivity.
  - intros spec Hin Hrel.
    destruct ts; vm_compute in Hin;
      repeat (destruct Hin as [<-|Hin]; [try discriminate Hrel|]);
      try contradiction;
      join_rel; rewrite under_eq, within_under; reflexivity.
  - exists "src/lib/generated/". split; [vm_compute; tauto|].
    split; [reflexivity|].
    join_rel. rewrite under_eq, within_under. reflexivity.
  - intros f Hin. apply written_below in Hin as (rel & -> & Hrel).
    rewrite within_under. rewrite project_files_names in Hrel.
    destruct ts; cbn in Hrel;
      repeat (destruct Hrel as [<-|Hrel]; [reflexivity|]); destruct Hrel.
Qed.

Example env_demo :
  env_reads (generatePrismaClient true) = ["DATABASE_URL"]
  /\ env_reads generatePrismaConfig = ["DATABASE_URL"]
  /\ env_reads (generateIndexFile false) = ["PORT"]
  /\ env_defined (generateEnvFile "sqlite") = ["PORT"; "NODE_ENV"; "DATABASE_URL"]
  /\ file_arguments "tsx watch --env-file=.env src/index.ts" = [".env"; "src/index.ts"]
  /\ program_of "node --watch --env-file=.env src/index.js" = "node".
Proof. vm_compute. repeat split. Qed.

(** X12. Every package a generated source imports from is listed in the
    manifest, as a dependency or a dev-dependency, in both language
    modes. *)
Theorem bare_imports_are_dependencies (config : ProjectConfig) :
  forall source spec,
    In source (generated_sources (typescript config)) ->
    In spec (imports source) ->
    relative spec = false ->
    exists version,
      Json.at_path ["dependencies"; package_of spec] (generatePackageJson config)
        = Some (JStr version)
      \/ Json.at_path ["devDependencies"; package_of spec] (generatePackageJson config)
         = Some (JStr version).
Proof.
  destruct config as [name p ts db tpl].
  cbn [projectName projectPath typescript database template].
  intros source spec Hsource Hspec Hrel.
  destruct ts; cbn [generated_sources In] in Hsource;
    repeat (destruct Hsource as [<-|Hsource]);
    try contradiction;
    vm_compute in Hspec;
    repeat (destruct Hspec as [<-|Hspec]);
    try contradiction; try discriminate Hrel;
    eexists; first [ left; reflexivity | right; reflexivity ].
Qed.

(** X13. Every script of the manifest runs [node] or a program that one
    of the dev-dependencies of its language mode provides, and every file
    it names is written by the run, except the compiled entry point
    [dist/index.js] that [start] names in TypeScript mode. *)
Theorem scripts_are_runnable (config : ProjectConfig) (pm : string) :
  exists fs,
    scaffold config pm Fs.empty = inr (tt, fs) /\
    script_commands config <> [] /\
    (forall command, In command (script_commands config) ->
       program_of command = "node"
       \/ exists version,
            Json.at_path ["devDependencies"; provider (program_of command)]
              (generatePackageJson config) = Some (JStr version)) /\
    (forall command file,
       In command (script_commands config) ->
       In file (file_arguments command) ->
       Fs.is_file fs (Path.join [projectPath config; file]) = true
       \/ typescript config = true /\ file = "dist/index.js") /\
    (typescript config = true ->
     Fs.is_file fs (Path.join [projectPath config; "dist/index.js"]) = false).
Proof.
  exists (below (Path.join [projectPath config]) planned (project_files config pm)).
  split; [apply scaffold_fresh|].
  destruct config as [name p ts db tpl].
  cbn [projectName projectPath typescript database template].
  split; [destruct ts; vm_compute; discriminate|].
  split; [|split].
  - intros command Hin.
    destruct ts; vm_compute in Hin;
      repeat (destruct Hin as [<-|Hin]); try contradiction;
      first [ left; reflexivity | right; eexists; reflexivity ].
  - intros command file Hin Hfile.
    destruct ts; vm_compute in Hin;
      repeat (destruct Hin as [<-|Hin]); try contradiction;
      vm_compute in Hfile;
      repeat (destruct Hfile as [<-|Hfile]); try contradiction;
      first [ right; split; reflexivity
            | left; join_below; rewrite is_file_below; reflexivity ].
  - intros ->. join_below. rewrite is_file_below. reflexivity.
Qed.

(** X14. The generated sources read from the environment exactly the
    variables the environment file defines: each variable read is defined,
    and each variable defined is read by one of the sources. *)
Theorem environment_is_consistent (typescript : bool) (database : string) :
  (forall source name,
     In source (generated_sources typescript) ->
     In name (env_reads source) ->
     In name (env_defined (generateEnvFile database))) /\
  (forall name,
     In name (env_defined (generateEnvFile database)) ->
     exists source,
       In source (generated_sources typescript) /\ In name (env_reads source)).
Proof.
  split.
  - intros source name Hsource Hname.
    destruct typescript; cbn [generated_sources In] in Hsource;
      repeat (destruct Hsource as [<-|Hsource]); try contradiction;
      vm_compute in Hname;
      repeat (destruct Hname as [<-|Hname]); try contradiction;
      vm_compute; tauto.
  - intros name Hname. vm_compute in Hname.
    repeat (destruct Hname as [<-|Hname]); try contradiction.
    + exists (generateIndexFile typescript).
      split; [cbn; tauto | destruct typescript; vm_compute; tauto].
    + exists (generateErrorMiddleware typescript).
      split; [cbn; tauto | destruct typescript; vm_compute; tauto].
    + exists (generatePrismaClient typescript).
      split; [cbn; tauto | destruct typescript; vm_compute; tauto].
Qed.

(** The position of the first line of an explicit list that a pattern with
    an open end matches. *)
Ltac index_matching l ls :=
  match ls with
  | ?x :: _ => let _ := match goal with _ => unify l x end in constr:(O)
  | _ :: ?rest => let n := index_matching l rest in constr:(S n)
  end.

Ltac find_entry :=
  apply has_line_in; cbn [app];
  lazymatch goal with
  | |- In ?l ?ls =>
      let n := index_matching l ls in
      apply (nth_error_In ls n); reflexivity
  end.

(** X15. The manifest and the environment file are documented as they
    are: for every script of the manifest the README has an entry with the
    package manager's run command and the script's name, and every line of
    the environment file is a line of the README. *)
Theorem readme_documents_scripts_and_environment
    (config : ProjectConfig) (pm : string) :
  let readme := generateReadme (projectName config) (typescript config) pm in
  let run := if String.eqb pm "npm" then "npm run" else pm in
  script_names config <> [] /\
  (forall name, In name (script_names config) ->
     exists description,
       has_line ("- `" ++ run ++ " " ++ name ++ "` - " ++ description) readme
       = true) /\
  (forall line, In line (split_at "010"%char (generateEnvFile (database config))) ->
     has_line line readme = true).
Proof.
  intros readme run. subst readme run.
  destruct config as [name p ts db tpl].
  cbn [projectName projectPath typescript database template].
  split; [destruct ts; vm_compute; discriminate|].
  split.
  - intros script Hin. unfold generateReadme. cbv zeta.
    destruct ts; vm_compute in Hin;
      repeat (destruct Hin as [<-|Hin]); try contradiction;
      eexists; destruct (String.eqb pm "npm"), (String.eqb pm "pnpm");
      find_entry.
  - intros line Hin. unfold generateReadme. cbv zeta.
    vm_compute in Hin.
    repeat (destruct Hin as [<-|Hin]); try contradiction;
      destruct ts, (String.eqb pm "npm"), (String.eqb pm "pnpm");
      find_entry.
Qed.

(* ================================================================== *)
(** * Where the configuration files point *)


(** X17. Prisma's configuration points at what the run provides: the file
    it names as [schema] is written and holds the generated schema, and the
    directory it names for migrations is not created but lies directly in
    a directory the planner made. *)
Theorem prisma_config_points_at_schema (config : ProjectConfig) (pm : string) :
  let p := projectPath config in
  exists fs schema migrations,
    scaffold config pm Fs.empty = inr (tt, fs) /\
    setting "schema" generatePrismaConfig = [schema] /\
    setting "  path" generatePrismaConfig = [migrations] /\
    Fs.read fs (Path.join [p; schema]) = Some generatePrismaSchema /\
    Fs.is_dir fs (Path.join [p; migrations]) = false /\
    Fs.is_dir fs (Path.parent (Path.join [p; migrations])) = true.
Proof.
  intros p. subst p.
  exists (below (Path.join [projectPath config]) planned (project_files config pm)).
  exists "prisma/schema.prisma", "prisma/migrations".
  split; [apply scaffold_fresh|].
  destruct config as [name p ts db tpl].
  cbn [projectName projectPath typescript database template].
  split; [reflexivity|]. split; [reflexivity|].
  split; [|split].
  - join_below. rewrite read_below. destruct ts; reflexivity.
  - join_below. rewrite is_dir_below, given_under by reflexivity. reflexivity.
  - join_below. rewrite parent_under by discriminate. cbn [removelast].
    rewrite is_dir_below. apply orb_true_iff. right. reflexivity.
Qed.

(* ================================================================== *)
(** * The emitted error handler on any error *)

(** X18. Whatever is thrown and whatever status the response carries, the
    emitted handler never answers with the success status 200: it answers
    409 or 404 for the two codes it remaps, 500 where the response still
    carried 200, and the status the response carried otherwise. *)
Theorem handler_never_answers_200
    (ts : bool) (NODE_ENV : Handler.value) (err : Handler.Err) (statusCode : nat) :
  let reply := Handler.errorHandler ts NODE_ENV err statusCode in
  Handler.status reply <> 200 /\
  (Handler.status reply = 409 /\ Handler.equals (Handler.code err) "P2002" = true
   \/ Handler.status reply = 404 /\ Handler.equals (Handler.code err) "P2025" = true
   \/ Handler.status reply = 500 /\ statusCode = 200
   \/ Handler.status reply = statusCode /\ statusCode <> 200).
Proof.
  intros reply. subst reply.
  unfold Handler.errorHandler, Handler.errorHandler_ts, Handler.errorHandler_js.
  destruct ts; cbv beta zeta;
    (destruct (Nat.eqb statusCode 200) eqn:E200;
     [apply Nat.eqb_eq in E200 | apply Nat.eqb_neq in E200]);
    destruct (Handler.known err),
      (Handler.equals (Handler.code err) "P2002"),
      (Handler.equals (Handler.code err) "P2025");
    cbn [negb Handler.status fst snd];
    (split; [first [discriminate | exact E200] | tauto]).
Qed.

(* ================================================================== *)
(** * The theorems at sample inputs *)

Example join_demo :
  Path.to_string (Path.join ["/tmp/demo-api"; "src"; "lib"; "prisma.ts"])
  = "/tmp/demo-api/src/lib/prisma.ts"
  /\ Path.to_string (Path.join ["../a/../../b/./c"; "src/lib"]) = "../../b/c/src/lib"
  /\ Path.to_string (Path.join [EmptyString; "package.json"]) = "package.json"
  /\ Path.to_string (Path.join [EmptyString]) = ".".
Proof. repeat split. Qed.

Example stringify_demo :
  Json.stringify (JObj [ ("paths", JObj [ ("@/*", JArr [ JStr "./src/*" ]) ]);
                         ("strict", JBool true);
                         ("files", JArr []) ])
  = unlines [ "{";
              "  " ++ q "paths" ++ ": {";
              "    " ++ q "@/*" ++ ": [";
              "      " ++ q "./src/*";
              "    ]";
              "  },";
              "  " ++ q "strict" ++ ": true,";
              "  " ++ q "files" ++ ": []" ] ++ "}".
Proof. vm_compute. reflexivity. Qed.

Example ends_with_demo :
  ends_with ".ts" "index.ts" = true
  /\ ends_with ".ts" "prisma.config.ts" = true
  /\ ends_with ".ts" "index.js" = false
  /\ ends_with ".ts" "ts" = false.
Proof. repeat split. Qed.

(** C1 at the TypeScript sample: the entry point is [src/index.ts]. *)
Lemma language_mode_consistency_witness :
  exists fs,
    scaffold demo_config "pnpm" Fs.empty = inr (tt, fs) /\
    Fs.read fs (Path.join ["/tmp/demo-api"; "src"; "index.ts"])
    = Some (generateIndexFile true).
Proof.
  destruct (language_mode_consistency demo_config "pnpm")
    as (fs & Hrun & _ & Hts & _).
  exists fs. split; [exact Hrun | apply (Hts eq_refl)].
Defined.

(** C4 at the JavaScript sample: no [tsconfig.json]. *)
Lemma tsconfig_only_in_typescript_mode_witness :
  exists fs,
    scaffold demo_config_js "npm" Fs.empty = inr (tt, fs) /\
    Fs.read fs (Path.join ["/tmp/demo-api"; "tsconfig.json"]) = None.
Proof.
  destruct (tsconfig_only_in_typescript_mode demo_config_js "npm")
    as (fs & Hrun & _ & _ & Hjs).
  exists fs. split; [exact Hrun | apply (Hjs eq_refl)].
Defined.

(** C5 at a unique-constraint violation thrown by Prisma. *)
Lemma error_middleware_behaviour_witness :
  Handler.status
    (Handler.errorHandler true Handler.Undefined prisma_P2002 200) = 409
  /\ Handler.json_message
       (Handler.errorHandler true Handler.Undefined prisma_P2002 200)
     = "Duplicate field value: email".
Proof.
  exact (proj1 (error_middleware_behaviour true Handler.Undefined prisma_P2002 200)
           (or_introl eq_refl) eq_refl).
Defined.

(** C8 at yarn: no trace of the section. *)
Lemma approve_builds_only_for_pnpm_witness :
  includes "approve-builds" (generateReadme "demo-api" true "yarn") = false.
Proof.
  refine (proj2 (proj2 (proj2
            (approve_builds_only_for_pnpm "demo-api" true "yarn")))
            _ eq_refl eq_refl).
  discriminate.
Defined.

(** C10 at a string that names no package manager. *)
Lemma package_manager_is_embedded_verbatim_witness :
  Forall (fun example =>
            has_line example (generateReadme "demo-api" false "bun x") = true)
         (script_examples "bun x" false)
  /\ (forall line,
        In line (split_at "010"%char (generateReadme "demo-api" false "bun x")) ->
        starts_with "#" line = false ->
        ends_with " db:generate" line = true ->
        line = "bun x db:generate").
Proof.
  destruct (package_manager_is_embedded_verbatim "demo-api" false "bun x")
    as (_ & Hshown & _ & Honly).
  split.
  - apply Hshown. discriminate.
  - intros line Hin Hc He.
    refine (proj1 (Honly eq_refl eq_refl eq_refl eq_refl line Hin)
              "db:generate" _ Hc He).
    right. right. right. left. reflexivity.
Defined.

(** X2 at the planner's run on the empty file system. *)
Lemma planner_only_adds_directories_witness :
  exists fs',
    createProjectStructure "/tmp/demo-api" Fs.empty = inr (tt, fs') /\
    Fs.files fs' = [] /\
    Fs.is_dir fs' (Path.mk true ["tmp"])
    = Fs.is_dir Fs.empty (Path.mk true ["tmp"])
      || existsb (fun folder =>
                    Path.within (Path.mk true ["tmp"])
                      (Path.join ["/tmp/demo-api"; folder])) folders.
Proof.
  exists (below (Path.join ["/tmp/demo-api"]) planned []).
  split; [apply createProjectStructure_fresh|].
  destruct (planner_only_adds_directories "/tmp/demo-api" Fs.empty _
              (createProjectStructure_fresh "/tmp/demo-api"))
    as (Hfiles & _ & Hdirs).
  split; [exact Hfiles | apply Hdirs].
Defined.

(** X3 at the planner's run on the empty file system. *)
Lemma planner_is_idempotent_witness :
  exists fs' fs'',
    createProjectStructure "/tmp/demo-api" Fs.empty = inr (tt, fs') /\
    createProjectStructure "/tmp/demo-api" fs' = inr (tt, fs'') /\
    forall q, Fs.is_dir fs'' q = Fs.is_dir fs' q.
Proof.
  exists (below (Path.join ["/tmp/demo-api"]) planned []).
  destruct (planner_is_idempotent "/tmp/demo-api" Fs.empty _
              (createProjectStructure_fresh "/tmp/demo-api"))
    as (fs'' & Hrun & _ & Hdirs).
  exists fs''. split; [apply createProjectStructure_fresh|].
  split; [exact Hrun | exact Hdirs].
Defined.

(** X5 at the materializer's run after the planner. *)
Lemma materializer_frame_witness :
  exists fs',
    writeProjectFiles demo_config "pnpm"
      (below (Path.join ["/tmp/demo-api"]) planned []) = inr (tt, fs') /\
    Fs.dirs fs' = Fs.dirs (below (Path.join ["/tmp/demo-api"]) planned []) /\
    forall w, In w (targets demo_config "pnpm") ->
              Fs.read fs' (fst w) = Some (snd w).
Proof.
  eexists. split; [apply (writeProjectFiles_planned demo_config "pnpm")|].
  destruct (materializer_frame demo_config "pnpm" _ _
              (writeProjectFiles_planned demo_config "pnpm"))
    as (Hdirs & _ & Hread & _).
  split; [exact Hdirs | exact Hread].
Defined.

(** X8 at a JavaScript run over a TypeScript project. *)
Lemma regeneration_succeeds_in_place_witness :
  exists fs1 fs2,
    scaffold demo_config "pnpm" Fs.empty = inr (tt, fs1) /\
    scaffold demo_config_js "npm" fs1 = inr (tt, fs2) /\
    forall q, Fs.is_dir fs2 q = Fs.is_dir fs1 q.
Proof.
  destruct (regeneration_succeeds_in_place demo_config demo_config_js
              "pnpm" "npm" eq_refl)
    as (fs1 & fs2 & H1 & H2 & _ & _ & Hdirs).
  exists fs1, fs2. split; [exact H1|]. split; [exact H2 | exact Hdirs].
Defined.

(** X10 at a JavaScript run over a TypeScript project. *)
Lemma mode_switch_keeps_typescript_files_witness :
  exists fs1 fs2,
    scaffold demo_config "pnpm" Fs.empty = inr (tt, fs1) /\
    scaffold demo_config_js "npm" fs1 = inr (tt, fs2) /\
    Fs.read fs2 (Path.join ["/tmp/demo-api"; "tsconfig.json"])
      = Some generateTsConfig.
Proof.
  destruct (mode_switch_keeps_typescript_files demo_config demo_config_js
              "pnpm" "npm" eq_refl eq_refl eq_refl)
    as (fs1 & fs2 & H1 & H2 & Hts & _).
  exists fs1, fs2. split; [exact H1|]. split; [exact H2 | exact Hts].
Defined.


(** X12 at the [dotenv/config] import of Prisma's configuration. *)
Lemma bare_imports_are_dependencies_witness :
  exists version,
    Json.at_path ["dependencies"; package_of "dotenv/config"]
      (generatePackageJson demo_config) = Some (JStr version)
    \/ Json.at_path ["devDependencies"; package_of "dotenv/config"]
         (generatePackageJson demo_config) = Some (JStr version).
Proof.
  refine (bare_imports_are_dependencies demo_config generatePrismaConfig
            "dotenv/config" _ _ eq_refl).
  - right. right. right. left. reflexivity.
  - left. reflexivity.
Defined.
